(** * pip-inspector: the table extractor and the page fetcher

    A shallow embedding of [dev/parse_with_selectolax.py] (the two
    extraction functions [parse_pypi_inspector] and [parse_real_pypi_page])
    and of [pip_inspector/utils.py] ([fetch_url_content]), with the
    properties of the specification stated and proved over it.

    Python text is modelled by [string], one [ascii] per code point, so the
    texts covered are those whose code points lie below U+0100. *)

From Stdlib Require Import List String Ascii Strings.Byte ZArith NArith Bool Lia DecimalString.
Import ListNotations.

Open Scope string_scope.
Open Scope list_scope.
Open Scope Z_scope.

(** ** Python values, exceptions and outcomes *)

(** The exception classes the two modules can meet.  All of them derive from
    [Exception]; [HTTPError] derives from [URLError]. *)
Inductive exn : Type :=
| HTTPError (code : Z) (reason : string)
| URLError (reason : string)
| ValueError (msg : string)
| LookupError (msg : string)
| OtherException (name : string).

(** A call either returns a value or raises. *)
Inductive outcome (A : Type) : Type :=
| Returns (a : A)
| Raises (e : exn).
Arguments Returns {A} a.
Arguments Raises {A} e.

Definition bind {A B : Type} (m : outcome A) (k : A -> outcome B) : outcome B :=
  match m with
  | Returns a => k a
  | Raises e => Raises e
  end.

Notation "x <- m ;; k" := (bind m (fun x => k))
  (at level 61, m at next level, right associativity).

(** The values stored in the dictionaries the extractor builds. *)
Inductive pyval : Type :=
| PyNone
| PyStr (s : string)
| PyInt (z : Z).

Definition is_text (v : pyval) : bool :=
  match v with PyStr _ => true | _ => false end.

(** The double quote character. *)
Definition dquote : ascii := ascii_of_nat 34.

(** ** The [str] methods used by the extractor *)

Module Str.

Definition code (c : ascii) : Z := Z.of_N (N_of_ascii c).

Definition between (lo hi : Z) (c : ascii) : bool :=
  (lo <=? code c) && (code c <=? hi).

(** [str.isspace] on one character: U+0009..U+000D, U+001C..U+0020, U+0085
    and U+00A0 are the white-space code points below U+0100. *)
Definition isspace (c : ascii) : bool :=
  between 9 13 c || between 28 32 c || (code c =? 133) || (code c =? 160).

(** The decimal digits '0'..'9' (category Nd below U+0100). *)
Definition isdecimal_char (c : ascii) : bool := between 48 57 c.

(** The characters [str.isdigit] accepts: the decimal digits and the
    superscripts U+00B2, U+00B3 and U+00B9. *)
Definition isdigit_char (c : ascii) : bool :=
  isdecimal_char c || (code c =? 178) || (code c =? 179) || (code c =? 185).

Fixpoint all_chars (p : ascii -> bool) (s : string) : bool :=
  match s with
  | EmptyString => true
  | String c s' => p c && all_chars p s'
  end.

Definition nonempty (s : string) : bool :=
  match s with EmptyString => false | String _ _ => true end.

(** [s.isdigit()]: at least one character, and every character a digit. *)
Definition isdigit (s : string) : bool := nonempty s && all_chars isdigit_char s.

(** [s.isdecimal()], used to state when [int] succeeds. *)
Definition isdecimal (s : string) : bool := nonempty s && all_chars isdecimal_char s.

Fixpoint lstrip (s : string) : string :=
  match s with
  | EmptyString => EmptyString
  | String c s' => if isspace c then lstrip s' else s
  end.

Fixpoint rstrip (s : string) : string :=
  match s with
  | EmptyString => EmptyString
  | String c s' =>
      match rstrip s' with
      | EmptyString => if isspace c then EmptyString else String c EmptyString
      | r => String c r
      end
  end.

(** [s.strip()] *)
Definition strip (s : string) : string := rstrip (lstrip s).

(** The value of a run of decimal digits, most significant first. *)
Fixpoint decimal_value (acc : Z) (s : string) : Z :=
  match s with
  | EmptyString => acc
  | String c s' => decimal_value (10 * acc + (code c - 48)) s'
  end.

(** Digit groups of an integer literal: digits, with single underscores
    allowed between digits only.  Returns the digits with the underscores
    removed. *)
Fixpoint literal_digits (prev_digit : bool) (s : string) : option string :=
  match s with
  | EmptyString => if prev_digit then Some EmptyString else None
  | String c s' =>
      if isdecimal_char c then
        option_map (String c) (literal_digits true s')
      else if (code c =? 95) && prev_digit then
        literal_digits false s'
      else None
  end.

(** [repr] of a text: the apostrophe is the quote unless the text has
    apostrophes and no double quote; the quote and the backslash are escaped,
    as are tab, line feed and carriage return; any other character that is
    not printable (the control characters, U+007F to U+00A0 and U+00AD) is
    written in hexadecimal. *)
Definition hex_digit (n : Z) : ascii :=
  match String.get (Z.to_nat n) "0123456789abcdef" with
  | Some c => c
  | None => "0"%char
  end.

Definition printable (c : ascii) : bool :=
  let n := code c in
  negb ((n <? 32) || ((127 <=? n) && (n <=? 160)) || (n =? 173)).

Definition repr_char (quote c : ascii) : string :=
  let n := code c in
  if Ascii.eqb c quote || Ascii.eqb c "\" then String "\" (String c EmptyString)
  else if n =? 9 then "\t"
  else if n =? 10 then "\n"
  else if n =? 13 then "\r"
  else if printable c then String c EmptyString
  else String "\" (String "x" (String (hex_digit (n / 16))
                                 (String (hex_digit (n mod 16)) EmptyString))).

Fixpoint has_char (c : ascii) (s : string) : bool :=
  match s with
  | EmptyString => false
  | String d s' => Ascii.eqb c d || has_char c s'
  end.

Fixpoint escape (quote : ascii) (s : string) : string :=
  match s with
  | EmptyString => EmptyString
  | String c s' => (repr_char quote c ++ escape quote s')%string
  end.

Definition repr (s : string) : string :=
  let quote := if has_char "'" s && negb (has_char dquote s) then dquote
               else "'"%char in
  String quote (escape quote s ++ String quote EmptyString)%string.

(** [str(n)] of a length. *)
Definition of_nat (n : nat) : string := NilZero.string_of_uint (Nat.to_uint n).

(** [int(s)] for a [str] argument, base 10: surrounding white space is
    dropped, one sign is allowed, then digit groups.  [max_str_digits] is the
    interpreter's limit on the number of digits ([sys.get_int_max_str_digits()],
    4300 unless changed; 0 switches the limit off, as do the interpreters
    that predate it). *)
Definition int (max_str_digits : nat) (s : string) : outcome Z :=
  let invalid :=
    Raises (ValueError ("invalid literal for int() with base 10: " ++ repr s)%string) in
  let body sign t :=
    match literal_digits false t with
    | None => invalid
    | Some ds =>
        if ((0 <? max_str_digits) && (max_str_digits <? String.length ds))%nat
        then Raises (ValueError
               ("Exceeds the limit (" ++ of_nat max_str_digits
                ++ " digits) for integer string conversion: value has "
                ++ of_nat (String.length ds)
                ++ " digits; use sys.set_int_max_str_digits() to increase the limit")%string)
        else Returns (sign * decimal_value 0 ds)
    end in
  match strip s with
  | String c t =>
      if Ascii.eqb c "+" then body 1 t
      else if Ascii.eqb c "-" then body (-1) t
      else body 1 (String c t)
  | EmptyString => invalid
  end.

End Str.

(** The literals of the source that contain a double quote are written here
    with an apostrophe in its place (none of them contains an apostrophe), and
    [q] puts the double quotes back. *)
Fixpoint q (s : string) : string :=
  match s with
  | EmptyString => EmptyString
  | String c s' => String (if Ascii.eqb c "'" then dquote else c) (q s')
  end.

(** ** The HTML library, as the extractor sees it *)

(** What [dev/parse_with_selectolax.py] uses of selectolax: the parser, CSS
    queries on a node, the text of a node and its attribute dictionary (the
    value of an attribute written without a value is [None]). *)
Record Selectolax : Type := {
  node : Type;
  HTMLParser : string -> node;
  css : node -> string -> list node;
  text : node -> string;
  attributes : node -> list (string * option string)
}.
Arguments css {_} _ _.
Arguments text {_} _.
Arguments attributes {_} _.

(** [css_first(query)] is the first node [css(query)] returns, [None] when
    there is none. *)
Definition css_first {lib : Selectolax} (n : node lib) (query : string)
  : option (node lib) :=
  hd_error (css n query).

(** The entry of a dictionary for a key: [None] when the key is absent,
    [Some None] when its value is [None]. *)
Fixpoint dict_lookup (d : list (string * option string)) (key : string)
  : option (option string) :=
  match d with
  | [] => None
  | (k, v) :: d' => if String.eqb k key then Some v else dict_lookup d' key
  end.

(** [d.get(key, default)] on an attribute dictionary. *)
Definition dict_get (d : list (string * option string)) (key : string)
  (default : pyval) : pyval :=
  match dict_lookup d key with
  | None => default
  | Some (Some s) => PyStr s
  | Some None => PyNone
  end.

(** ** The records *)

Record VersionRecord : Type := {
  version : pyval;
  url : pyval;
  timestamp : pyval;
  artifacts : pyval
}.

Record PageResult : Type := {
  project : pyval;
  version_count : pyval;
  versions : list VersionRecord
}.

(** ** The extractor *)

Section Extractor.

Variable lib : Selectolax.
Variable max_str_digits : nat.

(** The body of the loop of [parse_pypi_inspector]: [len(cells) >= 3] holds
    exactly when the list of cells has a first, a second and a third
    element. *)
Definition lenient_row (row : node lib) (versions : list VersionRecord)
  : outcome (list VersionRecord) :=
  match css row "td" with
  | c0 :: c1 :: c2 :: _ =>
      let version_link := css_first c0 "a" in
      let version :=
        match version_link with Some a => PyStr (text a) | None => PyNone end in
      let version_url :=
        match version_link with
        | Some a => dict_get (attributes a) "href" (PyStr "")
        | None => PyNone
        end in
      let timestamp := text c1 in
      let artifacts := text c2 in
      a <- (if Str.isdigit artifacts
            then z <- Str.int max_str_digits artifacts ;; Returns (PyInt z)
            else Returns (PyStr artifacts)) ;;
      Returns (versions ++ [ {| version := version; url := version_url;
                                timestamp := PyStr timestamp; artifacts := a |} ])
  | _ => Returns versions
  end.

(** [for row in rows: body] over a state that the body may update or leave
    by raising. *)
Fixpoint for_each {A S : Type} (body : A -> S -> outcome S) (rows : list A) (s : S)
  : outcome S :=
  match rows with
  | [] => Returns s
  | row :: rest => s' <- body row s ;; for_each body rest s'
  end.

Definition parse_pypi_inspector (content : string) : outcome (list VersionRecord) :=
  let tree := HTMLParser lib content in
  let rows := css tree "table tr" in
  for_each lenient_row (tl rows) [].

(** The body of the loop of [parse_real_pypi_page]. *)
Definition strict_row (versions : list VersionRecord) (row : node lib)
  : list VersionRecord :=
  match css row "td" with
  | c0 :: c1 :: c2 :: _ =>
      match css_first c0 "a" with
      | Some version_link =>
          versions ++ [ {| version := PyStr (Str.strip (text version_link));
                           url := dict_get (attributes version_link) "href" (PyStr "");
                           timestamp := PyStr (Str.strip (text c1));
                           artifacts := PyStr (Str.strip (text c2)) |} ]
      | None => versions
      end
  | _ => versions
  end.

Definition parse_real_pypi_page (html_str : string) : PageResult :=
  let tree := HTMLParser lib html_str in
  let project_input := css_first tree (q "input[name='project']") in
  let project_name :=
    match project_input with
    | Some i => dict_get (attributes i) "value" (PyStr "")
    | None => PyNone
    end in
  let version_msg := css_first tree "p" in
  let version_count_text :=
    match version_msg with Some p => PyStr (text p) | None => PyNone end in
  let versions := fold_left strict_row (css tree "table tbody tr, table tr") [] in
  {| project := project_name;
     version_count := version_count_text;
     versions := versions |}.

End Extractor.

(** ** A document model for the library

    Element trees, the two ways a selector engine may report the matches
    of a selector list, and a tree builder for pages written like the
    example of the repository.  The theorems about arbitrary pages below are
    stated over every [Selectolax]; this model is what the concrete pages are
    evaluated on. *)

#[local] Set Warnings "-register-all".

Inductive dom : Type :=
| Text (s : string)
| Elem (tag : string) (attrs : list (string * option string)) (kids : list dom).

(** [node.text()]: the text nodes below the node, joined in document order. *)
Fixpoint dom_text (n : dom) : string :=
  match n with
  | Text s => s
  | Elem _ _ kids => String.concat "" (map dom_text kids)
  end.

Definition dom_attributes (n : dom) : list (string * option string) :=
  match n with
  | Text _ => []
  | Elem _ attrs _ => attrs
  end.

(** *** Selectors: [tag], [tag[attr="value"]], [#id] or [.class], chained by
    descendant combinators, alternatives separated by commas *)

(** An empty [sel_tag] stands for any element. *)
Record simple : Type := {
  sel_tag : string;
  sel_attr : option (string * string);
  sel_id : option string;
  sel_class : option string
}.

Definition html_space (c : ascii) : bool :=
  let n := Str.code c in
  (n =? 32) || (n =? 9) || (n =? 10) || (n =? 12) || (n =? 13).

Fixpoint span (p : ascii -> bool) (s : string) : string * string :=
  match s with
  | EmptyString => (EmptyString, EmptyString)
  | String c s' =>
      if p c then let (a, b) := span p s' in (String c a, b)
      else (EmptyString, s)
  end.

Definition is_char (c d : ascii) : bool := Ascii.eqb c d.
Definition not_char (c d : ascii) : bool := negb (Ascii.eqb c d).

(** The pieces of [s] between the occurrences of [sep]. *)
Fixpoint split_on (sep : ascii) (s : string) : list string :=
  match s with
  | EmptyString => [EmptyString]
  | String c s' =>
      if Ascii.eqb c sep then EmptyString :: split_on sep s'
      else match split_on sep s' with
           | [] => [String c EmptyString]
           | w :: ws => String c w :: ws
           end
  end.

(** The pieces of [s] between the characters that satisfy [p]. *)
Fixpoint split_when (p : ascii -> bool) (s : string) : list string :=
  match s with
  | EmptyString => [EmptyString]
  | String c s' =>
      if p c then EmptyString :: split_when p s'
      else match split_when p s' with
           | [] => [String c EmptyString]
           | w :: ws => String c w :: ws
           end
  end.

Definition tag_selector (tag : string) (attr : option (string * string)) : simple :=
  {| sel_tag := tag; sel_attr := attr; sel_id := None; sel_class := None |}.

Definition parse_simple (s : string) : option simple :=
  match s with
  | String "#" name =>
      Some {| sel_tag := EmptyString; sel_attr := None;
              sel_id := Some name; sel_class := None |}
  | String "." name =>
      Some {| sel_tag := EmptyString; sel_attr := None;
              sel_id := None; sel_class := Some name |}
  | _ =>
      let (tag, rest) := span (not_char "[") s in
      match rest with
      | EmptyString => Some (tag_selector tag None)
      | String _ inner =>
          let (name, rest1) := span (not_char "=") inner in
          match rest1 with
          | String _ (String d rest2) =>
              let (value, rest3) := span (not_char dquote) rest2 in
              if Ascii.eqb d dquote && String.eqb rest3 (String dquote "]")
              then Some (tag_selector tag (Some (name, value)))
              else None
          | _ => None
          end
      end
  end.

Fixpoint all_some {A : Type} (l : list (option A)) : option (list A) :=
  match l with
  | [] => Some []
  | Some a :: l' => option_map (cons a) (all_some l')
  | None :: _ => None
  end.

Definition parse_complex (s : string) : option (list simple) :=
  all_some (map parse_simple
              (filter Str.nonempty (split_on " " s))).

Definition parse_selector (query : string) : option (list (list simple)) :=
  all_some (map parse_complex (split_on "," query)).

Definition has_attr (attrs : list (string * option string)) (name value : string)
  : bool :=
  existsb (fun kv => String.eqb (fst kv) name &&
                     match snd kv with
                     | Some v => String.eqb v value
                     | None => false
                     end) attrs.

(** The element has the class among the words of its [class] attribute. *)
Definition has_class (attrs : list (string * option string)) (name : string)
  : bool :=
  existsb (fun kv => String.eqb (fst kv) "class" &&
                     match snd kv with
                     | Some v => existsb (String.eqb name) (split_when html_space v)
                     | None => false
                     end) attrs.

Definition matches (s : simple) (n : dom) : bool :=
  match n with
  | Text _ => false
  | Elem tag attrs _ =>
      (String.eqb (sel_tag s) EmptyString || String.eqb tag (sel_tag s)) &&
      match sel_attr s with
      | None => true
      | Some (name, value) => has_attr attrs name value
      end &&
      match sel_id s with
      | None => true
      | Some name => has_attr attrs "id" name
      end &&
      match sel_class s with
      | None => true
      | Some name => has_class attrs name
      end
  end.

(** Matching a chain from the right, at a node with its ancestors (nearest
    first). *)
Fixpoint ancestors_match (rchain : list simple) (ancestors : list dom) : bool :=
  match rchain with
  | [] => true
  | s :: rchain' =>
      (fix look (l : list dom) : bool :=
         match l with
         | [] => false
         | a :: l' => if matches s a then ancestors_match rchain' l' else look l'
         end) ancestors
  end.

Definition matches_chain (chain : list simple) (n : dom) (ancestors : list dom)
  : bool :=
  match rev chain with
  | [] => false
  | s :: rchain => matches s n && ancestors_match rchain ancestors
  end.

(** The nodes of the subtree, each with its ancestors inside the subtree. *)
Fixpoint with_ancestors (ancestors : list dom) (n : dom) : list (dom * list dom) :=
  (n, ancestors) ::
  match n with
  | Text _ => []
  | Elem _ _ kids => flat_map (with_ancestors (n :: ancestors)) kids
  end.

(** The nodes of the subtree that one alternative matches, in document
    order. *)
Definition select_chain (chain : list simple) (n : dom) : list dom :=
  map fst (filter (fun na => matches_chain chain (fst na) (snd na))
             (with_ancestors [] n)).

(** How the matches of a selector list are reported.  [PerAlternative] is
    what [selectolax.parser] does: the alternatives are run one after the
    other and what each finds is appended, so a node that several
    alternatives match is reported once for each of them.  [EachOnce]
    reports every matching node once, in document order, as a selector list
    is read in a style sheet; it is not the behaviour of the library and
    serves to tell which results depend on the repetition. *)
Inductive engine : Type := PerAlternative | EachOnce.

Definition dom_css (e : engine) (n : dom) (query : string) : list dom :=
  match parse_selector query with
  | None => []
  | Some alternatives =>
      match e with
      | PerAlternative => flat_map (fun chain => select_chain chain n) alternatives
      | EachOnce =>
          map fst
            (filter (fun na => existsb (fun chain =>
                                 matches_chain chain (fst na) (snd na)) alternatives)
               (with_ancestors [] n))
      end
  end.

(** *** The tree builder

    Tokens are start tags with their attributes, end tags and text; comments
    and the doctype are dropped, character references are not decoded.  The
    builder follows the HTML tree construction on pages whose elements are
    closed explicitly: the document is [html] with a [head] and a [body],
    void elements take no children, the end tags of [html] and [body] close
    nothing, and a [tr] written directly in a [table] is put in a [tbody]. *)

Inductive token : Type :=
| TStart (tag : string) (attrs : list (string * option string))
| TEnd (tag : string)
| TText (s : string).

Definition lower_char (c : ascii) : ascii :=
  if Str.between 65 90 c then ascii_of_N (N_of_ascii c + 32) else c.

Fixpoint lower (s : string) : string :=
  match s with
  | EmptyString => EmptyString
  | String c s' => String (lower_char c) (lower s')
  end.

Definition is_letter (c : ascii) : bool :=
  Str.between 65 90 c || Str.between 97 122 c.

Definition tag_char (c : ascii) : bool :=
  negb (html_space c || is_char c ">" || is_char c "/").

Definition attr_name_char (c : ascii) : bool :=
  negb (html_space c || is_char c ">" || is_char c "/" || is_char c "=").

Definition unquoted_char (c : ascii) : bool :=
  negb (html_space c || is_char c ">").

Definition skip_spaces (s : string) : string := snd (span html_space s).

(** What follows the first occurrence of [c]. *)
Fixpoint after (c : ascii) (s : string) : string :=
  match s with
  | EmptyString => EmptyString
  | String d s' => if Ascii.eqb c d then s' else after c s'
  end.

(** What follows the end of a comment. *)
Fixpoint after_comment (s : string) : string :=
  match s with
  | String "-" (String "-" (String ">" rest)) => rest
  | String _ s' => after_comment s'
  | EmptyString => EmptyString
  end.

(** The attributes of a start tag, up to and including its closing bracket.
    A value that is empty is reported as no value. *)
Fixpoint tag_attributes (fuel : nat) (s : string)
  : list (string * option string) * string :=
  match fuel with
  | O => ([], s)
  | S fuel' =>
      match skip_spaces s with
      | EmptyString => ([], EmptyString)
      | String ">" rest => ([], rest)
      | String "/" rest => tag_attributes fuel' rest
      | s1 =>
          let (name, s2) := span attr_name_char s1 in
          match name with
          | EmptyString => tag_attributes fuel' (after "=" s1)
          | _ =>
              match skip_spaces s2 with
              | String "=" s3 =>
                  let (value, s5) :=
                    match skip_spaces s3 with
                    | String d s4 =>
                        if Ascii.eqb d dquote || Ascii.eqb d "'"
                        then let (v, r) := span (not_char d) s4 in (v, after d r)
                        else span unquoted_char (String d s4)
                    | EmptyString => (EmptyString, EmptyString)
                    end in
                  let (more, rest) := tag_attributes fuel' s5 in
                  ((lower name,
                    if Str.nonempty value then Some value else None) :: more, rest)
              | s3 =>
                  let (more, rest) := tag_attributes fuel' s3 in
                  ((lower name, None) :: more, rest)
              end
          end
      end
  end.

(** [d[key] = value]: a key written again keeps its place and takes the
    later value. *)
Fixpoint dict_set (d : list (string * option string))
  (kv : string * option string) : list (string * option string) :=
  match d with
  | [] => [kv]
  | (k, v) :: d' =>
      if String.eqb k (fst kv) then (k, snd kv) :: d'
      else (k, v) :: dict_set d' kv
  end.

Fixpoint tokens (fuel : nat) (s : string) : list token :=
  match fuel with
  | O => []
  | S fuel' =>
      match s with
      | EmptyString => []
      | String "<" (String "/" rest) =>
          let (name, rest1) := span tag_char rest in
          TEnd (lower name) :: tokens fuel' (after ">" rest1)
      | String "<" (String "!" (String "-" (String "-" rest))) =>
          tokens fuel' (after_comment rest)
      | String "<" (String "!" rest) => tokens fuel' (after ">" rest)
      | String "<" (String c rest) =>
          if is_letter c then
            let (name, rest1) := span tag_char (String c rest) in
            let (attrs, rest2) := tag_attributes (String.length rest1) rest1 in
            TStart (lower name) (fold_left dict_set attrs []) :: tokens fuel' rest2
          else
            let (t, rest1) := span (not_char "<") (String c rest) in
            TText (String "<" t) :: tokens fuel' rest1
      | String c rest =>
          let (t, rest1) := span (not_char "<") rest in
          TText (String c t) :: tokens fuel' rest1
      end
  end.

Definition tokenize (s : string) : list token := tokens (String.length s) s.

(** An open element: its children so far, last first. *)
Record frame : Type := {
  f_tag : string;
  f_attrs : list (string * option string);
  f_kids : list dom
}.

Definition close (f : frame) : dom := Elem (f_tag f) (f_attrs f) (rev (f_kids f)).

Definition add_child (n : dom) (stack : list frame) : list frame :=
  match stack with
  | [] => []
  | f :: stack' =>
      {| f_tag := f_tag f; f_attrs := f_attrs f; f_kids := n :: f_kids f |} :: stack'
  end.

Definition open_element (tag : string) (attrs : list (string * option string))
  (stack : list frame) : list frame :=
  {| f_tag := tag; f_attrs := attrs; f_kids := [] |} :: stack.

(** Closes the innermost open element. *)
Definition pop (stack : list frame) : list frame :=
  match stack with
  | f :: stack' => add_child (close f) stack'
  | [] => []
  end.

Definition adopt (child : option dom) (f : frame) : frame :=
  match child with
  | Some n => {| f_tag := f_tag f; f_attrs := f_attrs f; f_kids := n :: f_kids f |}
  | None => f
  end.

(** Closes the open elements up to and including the innermost [tag];
    [child] is the element just closed, to be put in the next one. *)
Fixpoint close_until (tag : string) (child : option dom) (stack : list frame)
  : list frame :=
  match stack with
  | [] => []
  | f :: stack' =>
      if String.eqb (f_tag f) tag then add_child (close (adopt child f)) stack'
      else close_until tag (Some (close (adopt child f))) stack'
  end.

Definition pop_to (tag : string) (stack : list frame) : list frame :=
  close_until tag None stack.

Definition is_open (tag : string) (stack : list frame) : bool :=
  existsb (fun f => String.eqb (f_tag f) tag) stack.

Definition top_is (tag : string) (stack : list frame) : bool :=
  match stack with
  | f :: _ => String.eqb (f_tag f) tag
  | [] => false
  end.

Definition void_elements : list string :=
  ["area"; "base"; "br"; "col"; "embed"; "hr"; "img"; "input"; "link"; "meta";
   "source"; "track"; "wbr"].

Definition one_of (l : list string) (s : string) : bool :=
  existsb (String.eqb s) l.

Definition all_space (s : string) : bool := Str.all_chars html_space s.

Inductive phase : Type := BeforeHead | InHead | AfterHead | InBody.

(** Text that follows text extends it. *)
Definition add_text (s : string) (stack : list frame) : list frame :=
  match stack with
  | {| f_tag := tag; f_attrs := attrs; f_kids := Text s0 :: kids |} :: stack' =>
      {| f_tag := tag; f_attrs := attrs; f_kids := Text (s0 ++ s)%string :: kids |} :: stack'
  | _ => add_child (Text s) stack
  end.

Definition in_body (stack : list frame) (t : token) : list frame :=
  match t with
  | TText s => add_text s stack
  | TStart tag attrs =>
      if one_of ["html"; "head"; "body"] tag then stack
      else if one_of void_elements tag then add_child (Elem tag attrs []) stack
      else if String.eqb tag "tr" && top_is "table" stack
      then open_element tag attrs (open_element "tbody" [] stack)
      else open_element tag attrs stack
  | TEnd tag =>
      if one_of ["html"; "head"; "body"] tag then stack
      else if is_open tag stack then pop_to tag stack
      else stack
  end.

Definition after_head (stack : list frame) (t : token) : phase * list frame :=
  match t with
  | TText s =>
      if all_space s then (AfterHead, add_text s stack)
      else (InBody, in_body (open_element "body" [] stack) t)
  | TStart "body" attrs => (InBody, open_element "body" attrs stack)
  | TStart "html" _ | TStart "head" _ => (AfterHead, stack)
  | TEnd _ => (AfterHead, stack)
  | _ => (InBody, in_body (open_element "body" [] stack) t)
  end.

Definition head_elements : list string :=
  ["title"; "meta"; "link"; "style"; "script"; "base"; "noscript"].

Definition in_head (stack : list frame) (t : token) : phase * list frame :=
  if top_is "head" stack then
    match t with
    | TEnd "head" => (AfterHead, pop stack)
    | TEnd _ => (InHead, stack)
    | TStart tag attrs =>
        if one_of head_elements tag then (InHead, in_body stack t)
        else after_head (pop stack) t
    | TText s =>
        if all_space s then (InHead, add_text s stack)
        else after_head (pop stack) t
    end
  else (InHead, in_body stack t).

Definition before_head (stack : list frame) (t : token) : phase * list frame :=
  match t with
  | TStart "html" attrs =>
      (BeforeHead,
       match stack with
       | [f] => [ {| f_tag := f_tag f; f_attrs := attrs; f_kids := f_kids f |} ]
       | _ => stack
       end)
  | TStart "head" attrs => (InHead, open_element "head" attrs stack)
  | TText s =>
      if all_space s then (BeforeHead, stack)
      else after_head (add_child (Elem "head" [] []) stack) t
  | TEnd _ => (BeforeHead, stack)
  | _ => after_head (add_child (Elem "head" [] []) stack) t
  end.

Definition step (st : phase * list frame) (t : token) : phase * list frame :=
  match fst st with
  | BeforeHead => before_head (snd st) t
  | InHead => in_head (snd st) t
  | AfterHead => after_head (snd st) t
  | InBody => (InBody, in_body (snd st) t)
  end.

(** At the end of the input the missing [head] and [body] are supplied and
    every open element is closed. *)
Definition finish (st : phase * list frame) : list frame :=
  match fst st with
  | BeforeHead =>
      open_element "body" [] (add_child (Elem "head" [] []) (snd st))
  | InHead => open_element "body" [] (pop_to "head" (snd st))
  | AfterHead => open_element "body" [] (snd st)
  | InBody => snd st
  end.

(** Closes every open element, innermost first. *)
Fixpoint close_all (child : option dom) (stack : list frame) : dom :=
  match stack with
  | [] => match child with Some n => n | None => Elem "html" [] [] end
  | f :: stack' => close_all (Some (close (adopt child f))) stack'
  end.

Definition parse_html (s : string) : dom :=
  close_all None (finish (fold_left step (tokenize s)
     (BeforeHead, [ {| f_tag := "html"; f_attrs := []; f_kids := [] |} ]))).

(** The library over this model, for each engine. *)
Definition dom_lib (e : engine) : Selectolax :=
  {| node := dom;
     HTMLParser := parse_html;
     css := dom_css e;
     text := dom_text;
     attributes := dom_attributes |}.

(** ** The fetcher *)

(** Decoded text: the code points of a [str]. *)
Definition unicode : Type := list N.

(** What [fetch_url_content] uses of [urllib] and of the codec registry.
    [Request] raises [ValueError] on a URL of unknown type, [urlopen] and
    [read] raise on HTTP error statuses, network errors and timeouts, and
    [decode] raises [LookupError] on an encoding it does not know. *)
Record Urllib : Type := {
  request : Type;
  response : Type;
  Request : string -> list (string * string) -> outcome request;
  urlopen : request -> Z -> outcome response;
  read : response -> outcome (list byte);
  get_content_charset : response -> option string;
  decode : list byte -> string -> string -> outcome unicode
}.
Arguments read {_} _.
Arguments get_content_charset {_} _.

(** The objects a caller may pass for [url]. *)
Inductive pyobj : Type :=
| ObjNone
| ObjBool (b : bool)
| ObjInt (z : Z)
| ObjStr (s : string)
| ObjBytes (b : list byte)
| ObjList (l : list pyobj).

(** Truth value of an object, as [not url] tests it. *)
Definition truthy (o : pyobj) : bool :=
  match o with
  | ObjNone => false
  | ObjBool b => b
  | ObjInt z => negb (z =? 0)
  | ObjStr s => Str.nonempty s
  | ObjBytes b => match b with [] => false | _ => true end
  | ObjList l => match l with [] => false | _ => true end
  end.

(** [isinstance(url, str)] *)
Definition isinstance_str (o : pyobj) : bool :=
  match o with ObjStr _ => true | _ => false end.

(** The text of a [str] object. *)
Definition str_of (o : pyobj) : string :=
  match o with ObjStr s => s | _ => EmptyString end.

(** What a call does besides returning: the network is used, a line is
    printed. *)
Inductive event : Type :=
| Urlopen (url : string) (timeout : Z)
| Read
| Print (line : string).

(** Computations that extend the trace of events and return or raise. *)
Definition io (A : Type) : Type := list event -> list event * outcome A.

Definition ret {A : Type} (a : A) : io A := fun tr => (tr, Returns a).
Definition raise {A : Type} (e : exn) : io A := fun tr => (tr, Raises e).
Definition lift {A : Type} (o : outcome A) : io A := fun tr => (tr, o).
Definition emit (e : event) : io unit := fun tr => (tr ++ [e], Returns tt).

Definition io_bind {A B : Type} (m : io A) (k : A -> io B) : io B :=
  fun tr =>
    match m tr with
    | (tr', Returns a) => k a tr'
    | (tr', Raises e) => (tr', Raises e)
    end.

Notation "x <~ m ;; k" := (io_bind m (fun x => k))
  (at level 61, m at next level, right associativity).

(** [try: body except Exception as e: handler(e)] *)
Definition try_except {A : Type} (body : io A) (handler : exn -> io A) : io A :=
  fun tr =>
    match body tr with
    | (tr', Returns a) => (tr', Returns a)
    | (tr', Raises e) => handler e tr'
    end.

Definition run {A : Type} (m : io A) : list event * outcome A := m [].

Definition str_of_Z (z : Z) : string := NilZero.string_of_int (Z.to_int z).

(** [x or default] on an optional text. *)
Definition or_else (x : option string) (default : string) : string :=
  match x with
  | Some s => if Str.nonempty s then s else default
  | None => default
  end.

Definition headers : list (string * string) :=
  [("User-Agent",
    ("Mozilla/5.0 (Windows NT 10.0; Win64; x64) AppleWebKit/537.36 " ++
     "(KHTML, like Gecko) Chrome/91.0.4472.124 Safari/537.36")%string);
   ("Accept",
    ("text/html,application/xhtml+xml,application/xml;q=0.9," ++
     "image/webp,*/*;q=0.8")%string);
   ("Accept-Language", "en-US,en;q=0.5");
   ("Accept-Encoding", "gzip, deflate");
   ("Connection", "keep-alive");
   ("Upgrade-Insecure-Requests", "1")].

(** The line each [except] clause prints; the clauses are tried in the order
    [HTTPError], [URLError], [ValueError], [Exception]. *)
Definition except_line (e : exn) (url : string) : string :=
  (match e with
   | HTTPError code reason =>
       "HTTP Error " ++ str_of_Z code ++ ": " ++ reason ++ " for URL: " ++ url
   | URLError reason => "URL Error: " ++ reason ++ " for URL: " ++ url
   | ValueError msg => "Value Error: " ++ msg ++ " for URL: " ++ url
   | LookupError msg => "Unexpected error: " ++ msg ++ " for URL: " ++ url
   | OtherException msg => "Unexpected error: " ++ msg ++ " for URL: " ++ url
   end)%string.

Section Fetcher.

Variable net : Urllib.

Definition fetch_url_content (url : pyobj) (timeout : Z) : io (option unicode) :=
  if negb (truthy url) || negb (isinstance_str url) then
    raise (ValueError "URL must be a non-empty string")
  else
    let url := str_of url in
    try_except
      (request <~ lift (Request net url headers) ;;
       _ <~ emit (Urlopen url timeout) ;;
       response <~ lift (urlopen net request timeout) ;;
       _ <~ emit Read ;;
       content <~ lift (read response) ;;
       let encoding := or_else (get_content_charset response) "utf-8" in
       decoded_content <~ lift (decode net content encoding "replace") ;;
       ret (Some decoded_content))
      (fun e => _ <~ emit (Print (except_line e url)) ;; ret None).

End Fetcher.

(** The default of the [timeout] argument. *)
Definition default_timeout : Z := 10.

(** *** A codec registry and a server, for the concrete runs *)

(** UTF-8 decoding with [errors='replace']: every maximal ill-formed part
    becomes U+FFFD.  The state is the code point under construction, the
    number of continuation bytes still needed and the bounds on the next
    byte. *)
Record utf8_state : Type := {
  cp : N;
  needed : nat;
  lo : N;
  hi : N
}.

Definition utf8_start : utf8_state := {| cp := 0; needed := 0; lo := 128; hi := 191 |}.

Definition replacement : N := 65533.

Definition utf8_lead (b : N) : list N * utf8_state :=
  (if b <=? 127 then ([b], utf8_start)
   else if (194 <=? b) && (b <=? 223)
   then ([], {| cp := N.land b 31; needed := 1; lo := 128; hi := 191 |})
   else if (224 <=? b) && (b <=? 239)
   then ([], {| cp := N.land b 15; needed := 2;
                lo := if b =? 224 then 160 else 128;
                hi := if b =? 237 then 159 else 191 |})
   else if (240 <=? b) && (b <=? 244)
   then ([], {| cp := N.land b 7; needed := 3;
                lo := if b =? 240 then 144 else 128;
                hi := if b =? 244 then 143 else 191 |})
   else ([replacement], utf8_start))%N.

Definition utf8_step (st : utf8_state) (b : N) : list N * utf8_state :=
  match needed st with
  | O => utf8_lead b
  | S n =>
      if ((lo st <=? b) && (b <=? hi st))%N then
        let c := N.lor (N.shiftl (cp st) 6) (N.land b 63) in
        match n with
        | O => ([c], utf8_start)
        | _ => ([], {| cp := c; needed := n; lo := 128; hi := 191 |})
        end
      else
        let (out, st') := utf8_lead b in (replacement :: out, st')
  end.

Fixpoint utf8_decode (st : utf8_state) (bs : list byte) : unicode :=
  match bs with
  | [] => match needed st with O => [] | S _ => [replacement] end
  | b :: bs' =>
      let (out, st') := utf8_step st (Byte.to_N b) in
      out ++ utf8_decode st' bs'
  end.

(** A part of the codec registry: UTF-8, Latin-1 and ASCII under their usual
    names.  The names it does not hold are answered as Python answers a name
    no codec has, such as x-unknown. *)
Definition registry_decode (content : list byte) (encoding errors : string)
  : outcome unicode :=
  if one_of ["utf-8"; "utf8"] encoding then Returns (utf8_decode utf8_start content)
  else if one_of ["latin-1"; "latin1"; "iso-8859-1"] encoding
  then Returns (map Byte.to_N content)
  else if one_of ["ascii"; "us-ascii"] encoding
  then Returns (map (fun b => if (Byte.to_N b <? 128)%N then Byte.to_N b
                              else replacement) content)
  else Raises (LookupError ("unknown encoding: " ++ encoding)%string).

(** A URL has a scheme when a colon follows a non-empty run of characters
    other than the slash and the colon. *)
Definition has_scheme (url : string) : bool :=
  let (scheme, rest) := span (fun c => negb (is_char c "/" || is_char c ":")) url in
  Str.nonempty scheme && match rest with String ":" _ => true | _ => false end.

Fixpoint ends_with (c : ascii) (s : string) : bool :=
  match s with
  | EmptyString => false
  | String d EmptyString => Ascii.eqb c d
  | String _ s' => ends_with c s'
  end.

(** What [Request] makes of the text it is given: white space around it is
    dropped, then angle brackets around it, then a leading URL: prefix. *)
Definition unwrap (url : string) : string :=
  let url := Str.strip url in
  let url :=
    match url with
    | String "<" rest =>
        if ends_with ">" url
        then Str.strip (String.substring 0 (String.length rest - 1) rest)
        else url
    | _ => url
    end in
  if String.prefix "URL:" url
  then Str.strip (String.substring 4 (String.length url - 4) url)
  else url.

(** What a server answers: the result of [urlopen], and for a response the
    result of reading the body and the charset of its content type. *)
Definition answer : Type := outcome (outcome (list byte) * option string).

Definition server_net (serve : string -> Z -> answer) : Urllib :=
  {| request := string;
     response := outcome (list byte) * option string;
     Request := fun url _ =>
       let full_url := unwrap url in
       if has_scheme full_url then Returns full_url
       else Raises (ValueError ("unknown url type: " ++ Str.repr full_url)%string);
     urlopen := serve;
     read := fst;
     get_content_charset := snd;
     decode := registry_decode |}.

(** ** The example page of the repository

    [html_str] of [dev/parse_with_selectolax.py], character for character. *)
Definition html_str : string := q "<html><body>
    <main>
      <h1><a href='/'>Inspector</a></h1>
      <form action='/'>
          <input type='text' name='project' placeholder='Project name' value='liburlparser' autocomplete='off'>
        <input type='submit'>
      </form><p>Retrieved 20 versions.</p>

<table>
<colgroup>
  <col style='width: 160px'>
  <col style='width: 160px'>
  <col style='width: 160px'>
</colgroup>
<thead>
<tr>
  <th>Version</th>
  <th>Upload Timestamp</th>
  <th>Artifacts</th>
</tr>
</thead>
  <tr>
    <td><a href='./1.6.0'>1.6.0</a></td>
    <td>2025-05-04T13:21:22</td>
    <td>10</td>
  </tr>
  <tr>
    <td><a href='./1.5.0'>1.5.0</a></td>
    <td>2024-10-18T18:22:29</td>
    <td>31</td>
  </tr>
</table>
    </main>
  </body>
</html>".

(** ** Pages and servers of the examples *)

(** One row of three cells whose first cell has no link. *)
Definition page_no_anchor : string :=
  "<table><tr><td>1.0</td><td>2024-01-01</td><td>3</td></tr></table>".

(** A header row, a row whose artifacts cell is a number, and a row whose
    link has an [href] without a value and whose cells carry spaces. *)
Definition page_mixed : string := q
  "<table><tr><th>Version</th><th>Upload</th><th>Artifacts</th></tr><tr><td><a href='./1.0'>1.0</a></td><td>t1</td><td>10</td></tr><tr><td><a href>0.9</a></td><td> t0 </td><td> 10 (estimate) </td></tr></table>".

(** A header row, a row of two cells and a row of three cells. *)
Definition page_two_three : string := q
  "<table><tr><th>Version</th></tr><tr><td><a href='./2'>2</a></td><td>t2</td></tr><tr><td><a href='./3'>3</a></td><td>t3</td><td>7</td></tr></table>".

(** A table without a header row, and the same table with one. *)
Definition page_no_header : string := q
  "<table><tr><td><a href='./1.1'>1.1</a></td><td>t1</td><td>4</td></tr><tr><td><a href='./1.0'>1.0</a></td><td>t0</td><td>2</td></tr></table>".

Definition page_header : string := q
  "<table><tr><th>Version</th></tr><tr><td><a href='./1.0'>1.0</a></td><td>t0</td><td>2</td></tr></table>".

(** A header row and a row whose artifacts cell holds the superscript two
    (U+00B2), a digit that is not decimal. *)
Definition page_superscript : string :=
  ("<table><tr><th>Version</th></tr><tr><td>1.0</td><td>t</td><td>"
   ++ String (ascii_of_nat 178) "</td></tr></table>")%string.

(** A page without a table, a paragraph or a form. *)
Definition page_unrelated : string := "<h1>Not found</h1>".

(** A server that answers every request with the given body and charset. *)
Definition serves (body : list byte) (charset : option string) : Urllib :=
  server_net (fun _ _ => Returns (Returns body, charset)).

(** A server that fails every request with the given exception. *)
Definition fails_with (e : exn) : Urllib := server_net (fun _ _ => Raises e).

(** ** Notions used in the statements *)

(** [l1] is [l2] with some elements left out, the order kept. *)
Inductive subseq {A : Type} : list A -> list A -> Prop :=
| subseq_nil : subseq [] []
| subseq_skip : forall x l1 l2, subseq l1 l2 -> subseq l1 (x :: l2)
| subseq_keep : forall x l1 l2, subseq l1 l2 -> subseq (x :: l1) (x :: l2).

(** A row has at least three cells. *)
Definition three_cells (lib : Selectolax) (row : node lib) : bool :=
  (3 <=? List.length (css row "td"))%nat.

(** The first cell of a row contains a link. *)
Definition has_link (lib : Selectolax) (row : node lib) : bool :=
  match css row "td" with
  | c0 :: _ =>
      match css_first c0 "a" with Some _ => true | None => false end
  | [] => false
  end.

(** A row has at least three cells and a link in the first. *)
Definition linked (lib : Selectolax) (row : node lib) : bool :=
  three_cells lib row && has_link lib row.

(** The text of the third cell of a row. *)
Definition artifacts_text (lib : Selectolax) (row : node lib) : string :=
  match css row "td" with
  | _ :: _ :: c2 :: _ => text c2
  | _ => EmptyString
  end.

(** Numeric coercion as the specification words it: the trimmed text of the
    cell, as an integer when it consists solely of decimal digits. *)
Definition coercion_as_specified (cell_text : string) : pyval :=
  let trimmed := Str.strip cell_text in
  if Str.isdecimal trimmed then PyInt (Str.decimal_value 0 trimmed)
  else PyStr trimmed.

(** The rule holds of a page: each record stores what the rule makes of the
    artifacts cell of its row. *)
Definition coercion_holds_strict (lib : Selectolax) (content : string) : Prop :=
  map artifacts (versions (parse_real_pypi_page lib content)) =
  map (fun row => coercion_as_specified (artifacts_text lib row))
    (filter (linked lib) (css (HTMLParser lib content) "table tbody tr, table tr")).

Definition coercion_holds_lenient (lib : Selectolax) (max_str_digits : nat)
  (content : string) : Prop :=
  exists vs, parse_pypi_inspector lib max_str_digits content = Returns vs /\
    map artifacts vs =
    map (fun row => coercion_as_specified (artifacts_text lib row))
      (filter (three_cells lib) (tl (css (HTMLParser lib content) "table tr"))).

(** The text of the artifacts cell converts: it is not made of digits, or it
    is made of the decimal digits and is within the digit limit. *)
Definition converts (max_str_digits : nat) (s : string) : bool :=
  negb (Str.isdigit s) ||
  (Str.isdecimal s &&
   negb ((0 <? max_str_digits)%nat && (max_str_digits <? String.length s)%nat)).

(** [s] occurs in [t]. *)
Fixpoint contains (t s : string) : bool :=
  match t with
  | EmptyString => String.eqb s EmptyString
  | String _ t' => String.prefix s t || contains t' s
  end.

(** The two records of the example page, with the artifact counts as the
    end-to-end scenario of the specification gives them (integers) and as
    text. *)
Definition record_1_6_0 (a : pyval) : VersionRecord :=
  {| version := PyStr "1.6.0"; url := PyStr "./1.6.0";
     timestamp := PyStr "2025-05-04T13:21:22"; artifacts := a |}.

Definition record_1_5_0 (a : pyval) : VersionRecord :=
  {| version := PyStr "1.5.0"; url := PyStr "./1.5.0";
     timestamp := PyStr "2024-10-18T18:22:29"; artifacts := a |}.

(** The end-to-end scenario as the specification states it. *)
Definition scenario_as_specified (r : PageResult) : Prop :=
  project r = PyStr "liburlparser" /\
  (exists msg, version_count r = PyStr msg /\
               contains msg "Retrieved 20 versions." = true) /\
  versions r = [record_1_6_0 (PyInt 10); record_1_5_0 (PyInt 31)].

(** ** The rest of the example module: the tour of queries and the script *)

Definition newline : string := String (ascii_of_nat 10) EmptyString.

(** [str(v)], as an f-string formats a value. *)
Definition str_of_pyval (v : pyval) : string :=
  match v with
  | PyNone => "None"
  | PyStr s => s
  | PyInt z => str_of_Z z
  end.

(** [str] of a list of texts. *)
Definition str_of_list (l : list string) : string :=
  ("[" ++ String.concat ", " (map Str.repr l) ++ "]")%string.

Definition print (line : string) : io unit := emit (Print line).

(** [for x in l: body] in a computation with events. *)
Fixpoint io_for_each {A : Type} (body : A -> io unit) (l : list A) : io unit :=
  match l with
  | [] => ret tt
  | x :: l' => _ <~ body x ;; io_for_each body l'
  end.

Section Examples.

Variable lib : Selectolax.

Definition link_line (link : node lib) : string :=
  ("  - " ++ text link ++ ": "
   ++ str_of_pyval (dict_get (attributes link) "href" (PyStr "")))%string.

Definition extract_elements_example (content : string) : io (node lib) :=
  let tree := HTMLParser lib content in
  let title := css_first tree "title" in
  _ <~ print ("Title: " ++ match title with
                           | Some t => text t
                           | None => "Not found"
                           end)%string ;;
  let links := css tree "a" in
  _ <~ print (newline ++ "Found " ++ str_of_Z (Z.of_nat (List.length links))
              ++ " links:")%string ;;
  _ <~ io_for_each (fun link => print (link_line link)) (firstn 5 links) ;;
  let loading_error := css_first tree "#loading-error" in
  _ <~ match loading_error with
       | Some n => print (newline ++ "Loading error message: " ++ text n)%string
       | None => ret tt
       end ;;
  let noscript_content := css tree ".noscript-content" in
  _ <~ match noscript_content with
       | _ :: _ =>
           print (newline ++ "Noscript elements found: "
                  ++ str_of_Z (Z.of_nat (List.length noscript_content)))%string
       | [] => ret tt
       end ;;
  let table := css_first tree "table" in
  _ <~ match table with
       | Some t =>
           _ <~ print (newline ++ "Table found!")%string ;;
           let headers := map text (css t "th") in
           print ("Headers: " ++ str_of_list headers)%string
       | None => ret tt
       end ;;
  ret tree.

Definition version_line (v : VersionRecord) : string :=
  ("  " ++ str_of_pyval (version v) ++ ": " ++ str_of_pyval (timestamp v)
   ++ " (" ++ str_of_pyval (artifacts v) ++ " artifacts)")%string.

(** The script at the end of the module, for the page it is given. *)
Definition main_block (html_str : string) : io unit :=
  let result := parse_real_pypi_page lib html_str in
  _ <~ print ("Project: " ++ str_of_pyval (project result))%string ;;
  _ <~ print ("Info: " ++ str_of_pyval (version_count result))%string ;;
  _ <~ print (newline ++ "Versions found: "
              ++ str_of_Z (Z.of_nat (List.length (versions result))))%string ;;
  io_for_each (fun v => print (version_line v)) (firstn 5 (versions result)).

End Examples.

(** The script as the module runs it, on its own page. *)
Definition main (lib : Selectolax) : io unit := main_block lib html_str.

(** A page with seven links and a table. *)
Definition page_links : string := q
  "<head><title>Links</title></head><body><a href='/1'>one</a><a href='/2'>two</a><a>three</a><a href>four</a><a href='/5'>five</a><a href='/6'>six</a><a href='/7'>seven</a><table><tr><th>Name</th><th>Version</th></tr></table></body>".

(** A row whose cells carry spaces, as the tree builder makes it. *)
Definition spaced_row : dom :=
  Elem "tr" []
    [Elem "td" [] [Elem "a" [("href", Some "./2.0")] [Text " 2.0 "]];
     Elem "td" [] [Text " 2025-01-01 "];
     Elem "td" [] [Text "12"]].

(** ** More notions used in the statements *)

Definition starts_with_space (s : string) : bool :=
  match s with
  | EmptyString => false
  | String c _ => Str.isspace c
  end.

Fixpoint ends_with_space (s : string) : bool :=
  match s with
  | EmptyString => false
  | String c EmptyString => Str.isspace c
  | String _ s' => ends_with_space s'
  end.

(** A text field without white space around it. *)
Definition trimmed (v : pyval) : Prop :=
  exists s, v = PyStr s /\ starts_with_space s = false /\ ends_with_space s = false.

Definition is_print (e : event) : bool :=
  match e with Print _ => true | _ => false end.

(** A computation that does nothing but add the events [evs] to the trace
    and return [a]. *)
Definition prints {A : Type} (m : io A) (evs : list event) (a : A) : Prop :=
  forall tr, m tr = (tr ++ evs, Returns a).

(** ** The strict variant over a library that may answer in several ways

    To state that two runs on the same text agree, a run is a derivation:
    each call of the library is a relation between its arguments and an
    answer, and [parse_real_pypi_page_runs] relates a text to the results
    the statements of [parse_real_pypi_page] can reach with such answers. *)

Record Answers : Type := {
  anode : Type;
  parser_answers : string -> anode -> Prop;
  css_answers : anode -> string -> list anode -> Prop;
  text_answers : anode -> string -> Prop;
  attributes_answers : anode -> list (string * option string) -> Prop
}.
Arguments css_answers {_} _ _ _.
Arguments text_answers {_} _ _.
Arguments attributes_answers {_} _ _.

(** Every call has at most one answer. *)
Record single_valued (L : Answers) : Prop := {
  parser_single : forall s t1 t2,
    parser_answers L s t1 -> parser_answers L s t2 -> t1 = t2;
  css_single : forall (n : anode L) query l1 l2,
    css_answers n query l1 -> css_answers n query l2 -> l1 = l2;
  text_single : forall (n : anode L) t1 t2,
    text_answers n t1 -> text_answers n t2 -> t1 = t2;
  attributes_single : forall (n : anode L) d1 d2,
    attributes_answers n d1 -> attributes_answers n d2 -> d1 = d2
}.

(** A library given by functions, as one that answers each call in the one
    way the function says. *)
Definition answers_of (lib : Selectolax) : Answers :=
  {| anode := node lib;
     parser_answers := fun s t => t = HTMLParser lib s;
     css_answers := fun n query l => l = css n query;
     text_answers := fun n t => t = text n;
     attributes_answers := fun n d => d = attributes n |}.

Section Runs.

Variable L : Answers.

(** A run of [css_first]. *)
Definition css_first_runs (n : anode L) (query : string) (o : option (anode L))
  : Prop :=
  exists l, css_answers n query l /\ o = hd_error l.

(** A run of the body of the loop, from the records [versions]. *)
Inductive strict_row_runs (versions : list VersionRecord) (row : anode L)
  : list VersionRecord -> Prop :=
| row_short (cells : list (anode L)) :
    css_answers row "td" cells -> (List.length cells < 3)%nat ->
    strict_row_runs versions row versions
| row_without_link (c0 c1 c2 : anode L) (rest : list (anode L)) :
    css_answers row "td" (c0 :: c1 :: c2 :: rest) ->
    css_first_runs c0 "a" None ->
    strict_row_runs versions row versions
| row_recorded (c0 c1 c2 : anode L) (rest : list (anode L))
    (version_link : anode L) (v t a : string)
    (attrs : list (string * option string)) :
    css_answers row "td" (c0 :: c1 :: c2 :: rest) ->
    css_first_runs c0 "a" (Some version_link) ->
    text_answers version_link v ->
    attributes_answers version_link attrs ->
    text_answers c1 t ->
    text_answers c2 a ->
    strict_row_runs versions row
      (versions ++ [ {| version := PyStr (Str.strip v);
                        url := dict_get attrs "href" (PyStr "");
                        timestamp := PyStr (Str.strip t);
                        artifacts := PyStr (Str.strip a) |} ]).

(** A run of the loop over the rows. *)
Inductive strict_loop_runs
  : list VersionRecord -> list (anode L) -> list VersionRecord -> Prop :=
| loop_end (versions : list VersionRecord) : strict_loop_runs versions [] versions
| loop_row (versions versions' versions'' : list VersionRecord) (row : anode L)
    (rows : list (anode L)) :
    strict_row_runs versions row versions' ->
    strict_loop_runs versions' rows versions'' ->
    strict_loop_runs versions (row :: rows) versions''.

(** A run of the two statements that read the project name. *)
Inductive project_runs (tree : anode L) : pyval -> Prop :=
| project_absent :
    css_first_runs tree (q "input[name='project']") None ->
    project_runs tree PyNone
| project_found (project_input : anode L) (attrs : list (string * option string)) :
    css_first_runs tree (q "input[name='project']") (Some project_input) ->
    attributes_answers project_input attrs ->
    project_runs tree (dict_get attrs "value" (PyStr "")).

(** A run of the two statements that read the message. *)
Inductive message_runs (tree : anode L) : pyval -> Prop :=
| message_absent :
    css_first_runs tree "p" None -> message_runs tree PyNone
| message_found (version_msg : anode L) (t : string) :
    css_first_runs tree "p" (Some version_msg) ->
    text_answers version_msg t ->
    message_runs tree (PyStr t).

(** A run of [parse_real_pypi_page]. *)
Inductive parse_real_pypi_page_runs (html_str : string) : PageResult -> Prop :=
| page_run (tree : anode L) (project_name version_count_text : pyval)
    (rows : list (anode L)) (versions : list VersionRecord) :
    parser_answers L html_str tree ->
    project_runs tree project_name ->
    message_runs tree version_count_text ->
    css_answers tree "table tbody tr, table tr" rows ->
    strict_loop_runs [] rows versions ->
    parse_real_pypi_page_runs html_str
      {| project := project_name;
         version_count := version_count_text;
         versions := versions |}.

End Runs.

(** A library that answers a query for paragraphs in two ways, and
    everything else in one. *)
Definition two_answers : Answers :=
  {| anode := unit;
     parser_answers := fun _ _ => True;
     css_answers := fun _ query l =>
       l = [] \/ (query = "p" /\ l = [tt]);
     text_answers := fun _ t => t = "Retrieved 20 versions.";
     attributes_answers := fun _ d => d = [] |}.

(** The result of the strict variant on the example page, as the library
    makes it. *)
Definition html_str_result : PageResult :=
  {| project := PyStr "liburlparser";
     version_count := PyStr "Retrieved 20 versions.";
     versions := [record_1_6_0 (PyStr "10"); record_1_5_0 (PyStr "31");
                  record_1_6_0 (PyStr "10"); record_1_5_0 (PyStr "31")] |}.

(** * Properties *)

(** ** The loops of the extractor *)

Lemma subseq_length {A : Type} (l1 l2 : list A) :
  subseq l1 l2 -> (List.length l1 <= List.length l2)%nat.
Proof. induction 1; simpl; lia. Qed.

Lemma subseq_filter {A : Type} (p : A -> bool) (l : list A) :
  subseq (filter p l) l.
Proof.
  induction l as [|x l IH]; simpl.
  - constructor.
  - destruct (p x); constructor; exact IH.
Qed.

Lemma subseq_tl {A : Type} (l1 l2 : list A) :
  subseq l1 (tl l2) -> subseq l1 l2.
Proof.
  destruct l2 as [|x l2]; simpl; intro H.
  - exact H.
  - constructor; exact H.
Qed.

Section Loops.

Variable lib : Selectolax.
Variable max_str_digits : nat.

Let strict := strict_row lib.
Let lenient := lenient_row lib max_str_digits.

(** What a row adds does not depend on the records gathered before it. *)
Lemma strict_row_app (acc : list VersionRecord) (row : node lib) :
  strict acc row = acc ++ strict [] row.
Proof.
  unfold strict, strict_row.
  destruct (css row "td") as [|c0 [|c1 [|c2 rest]]];
    try (now rewrite app_nil_r).
  destruct (css_first c0 "a"); [reflexivity | now rewrite app_nil_r].
Qed.

Lemma strict_loop_app (rows : list (node lib)) (acc : list VersionRecord) :
  fold_left strict rows acc = acc ++ flat_map (strict []) rows.
Proof.
  revert acc; induction rows as [|row rows IH]; intro acc; simpl.
  - now rewrite app_nil_r.
  - rewrite IH, strict_row_app, <- app_assoc. reflexivity.
Qed.

(** A row adds one record when it is [linked], none otherwise. *)
Lemma strict_row_linked (row : node lib) :
  linked lib row = true -> exists r, strict [] row = [r].
Proof.
  unfold linked, three_cells, has_link, strict, strict_row.
  destruct (css row "td") as [|c0 [|c1 [|c2 rest]]]; try discriminate.
  destruct (css_first c0 "a"); [intros _ | discriminate].
  eexists; reflexivity.
Qed.

Lemma strict_row_not_linked (row : node lib) :
  linked lib row = false -> strict [] row = [].
Proof.
  unfold linked, three_cells, has_link, strict, strict_row.
  destruct (css row "td") as [|c0 [|c1 [|c2 rest]]]; try reflexivity.
  destruct (css_first c0 "a"); [discriminate | reflexivity].
Qed.

Lemma strict_loop_kept (rows : list (node lib)) :
  Forall2 (fun row r => strict [] row = [r])
    (filter (linked lib) rows) (fold_left strict rows []).
Proof.
  rewrite strict_loop_app; simpl.
  induction rows as [|row rows IH]; simpl.
  - constructor.
  - destruct (linked lib row) eqn:E.
    + destruct (strict_row_linked row E) as [r Hr].
      rewrite Hr; simpl. constructor; assumption.
    + rewrite (strict_row_not_linked row E); simpl. exact IH.
Qed.

Lemma lenient_row_app (acc : list VersionRecord) (row : node lib) :
  lenient row acc = (vs <- lenient row [] ;; Returns (acc ++ vs)).
Proof.
  unfold lenient, lenient_row.
  destruct (css row "td") as [|c0 [|c1 [|c2 rest]]];
    try (simpl; now rewrite app_nil_r).
  destruct (Str.isdigit (text c2)); simpl.
  - destruct (Str.int max_str_digits (text c2)); reflexivity.
  - reflexivity.
Qed.

Lemma lenient_loop_app (rows : list (node lib)) (acc : list VersionRecord) :
  for_each lenient rows acc =
  (vs <- for_each lenient rows [] ;; Returns (acc ++ vs)).
Proof.
  revert acc; induction rows as [|row rows IH]; intro acc; simpl.
  - now rewrite app_nil_r.
  - rewrite (lenient_row_app acc).
    destruct (lenient row []) as [vs|e]; simpl; [|reflexivity].
    rewrite (IH (acc ++ vs)), (IH vs).
    destruct (for_each lenient rows []) as [ws|e]; simpl; [|reflexivity].
    now rewrite app_assoc.
Qed.

Lemma lenient_loop_cons (row : node lib) (rows : list (node lib)) :
  for_each lenient (row :: rows) [] =
  (vs <- lenient row [] ;; ws <- for_each lenient rows [] ;;
   Returns (vs ++ ws)).
Proof.
  simpl. destruct (lenient row []) as [vs|e]; simpl; [|reflexivity].
  apply lenient_loop_app.
Qed.

(** A row of fewer than three cells adds nothing; a row of three or more
    adds one record when the conversion of its artifacts cell returns. *)
Lemma lenient_row_short (row : node lib) :
  three_cells lib row = false -> lenient row [] = Returns [].
Proof.
  unfold three_cells, lenient, lenient_row.
  destruct (css row "td") as [|c0 [|c1 [|c2 rest]]]; try reflexivity.
  discriminate.
Qed.

Lemma lenient_row_long (row : node lib) (vs : list VersionRecord) :
  three_cells lib row = true -> lenient row [] = Returns vs ->
  exists r, vs = [r].
Proof.
  unfold three_cells, lenient, lenient_row.
  destruct (css row "td") as [|c0 [|c1 [|c2 rest]]]; try discriminate.
  intros _.
  destruct (Str.isdigit (text c2)); simpl.
  - destruct (Str.int max_str_digits (text c2)); simpl; [|discriminate].
    intro H; injection H as <-. eexists; reflexivity.
  - intro H; injection H as <-. eexists; reflexivity.
Qed.

Lemma lenient_loop_kept (rows : list (node lib)) (vs : list VersionRecord) :
  for_each lenient rows [] = Returns vs ->
  Forall2 (fun row r => lenient row [] = Returns [r])
    (filter (three_cells lib) rows) vs.
Proof.
  revert vs; induction rows as [|row rows IH]; intro vs.
  - simpl. intro H; injection H as <-. constructor.
  - rewrite lenient_loop_cons.
    destruct (lenient row []) as [v1|e] eqn:E1; simpl; [|discriminate].
    destruct (for_each lenient rows []) as [v2|e] eqn:E2; simpl; [|discriminate].
    intro H; injection H as <-.
    destruct (three_cells lib row) eqn:E.
    + destruct (lenient_row_long row v1 E E1) as [r ->].
      simpl. constructor; [exact E1 | now apply IH].
    + rewrite (lenient_row_short row E) in E1. injection E1 as <-.
      simpl. now apply IH.
Qed.

End Loops.

(** ** The example page *)

(** The tree the builder makes of the example page has the header row in the
    [thead] and the two data rows in a [tbody]. *)
Example html_str_rows :
  map (fun row => map dom_text (dom_css PerAlternative row "td"))
    (dom_css PerAlternative (parse_html html_str) "table tr")
  = [ []; ["1.6.0"; "2025-05-04T13:21:22"; "10"];
      ["1.5.0"; "2024-10-18T18:22:29"; "31"] ].
Proof. vm_compute. reflexivity. Qed.

(** The library reports a row once for each alternative of
    [table tbody tr, table tr] that matches it: the two data rows, which both
    alternatives match, are visited twice, and the strict variant returns
    four records, the artifact counts as text. *)
Example html_str_per_alternative :
  parse_real_pypi_page (dom_lib PerAlternative) html_str = html_str_result.
Proof. vm_compute. reflexivity. Qed.

(** The lenient variant on the same page converts the counts. *)
Example html_str_lenient (e : engine) :
  parse_pypi_inspector (dom_lib e) 4300 html_str
  = Returns [record_1_6_0 (PyInt 10); record_1_5_0 (PyInt 31)].
Proof. destruct e; vm_compute; reflexivity. Qed.

(** C1, as stated, fails: on the example page [parse_real_pypi_page] does not
    return the records with the integer artifact counts 10 and 31, whichever
    way the selector engine reports the rows. *)
Lemma scenario_as_specified_fails :
  ~ scenario_as_specified (parse_real_pypi_page (dom_lib EachOnce) html_str) /\
  ~ scenario_as_specified (parse_real_pypi_page (dom_lib PerAlternative) html_str).
Proof.
  split; intros (_ & _ & H); vm_compute in H; discriminate H.
Qed.

(** C1, amended: on the example page [parse_real_pypi_page] returns the
    project liburlparser, the message Retrieved 20 versions., and version
    records that start with the record of 1.6.0 (url ./1.6.0, timestamp
    2025-05-04T13:21:22, artifacts the text 10) followed by the record of
    1.5.0 (url ./1.5.0, timestamp 2024-10-18T18:22:29, artifacts the text 31);
    every record returned is one of these two. *)
Theorem example_page_extraction (e : engine) :
  let r := parse_real_pypi_page (dom_lib e) html_str in
  project r = PyStr "liburlparser" /\
  version_count r = PyStr "Retrieved 20 versions." /\
  firstn 2 (versions r) = [record_1_6_0 (PyStr "10"); record_1_5_0 (PyStr "31")] /\
  Forall (fun v => v = record_1_6_0 (PyStr "10") \/ v = record_1_5_0 (PyStr "31"))
    (versions r).
Proof.
  destruct e; vm_compute; repeat split; auto 10.
Qed.

(** ** Text conversions *)

Lemma decimal_char_facts (c : ascii) :
  Str.isdecimal_char c = true ->
  Str.isspace c = false /\ Str.isdigit_char c = true /\
  Ascii.eqb c "+" = false /\ Ascii.eqb c "-" = false.
Proof.
  destruct c as [[] [] [] [] [] [] [] []]; vm_compute; intro H;
    try discriminate H; repeat split.
Qed.

Lemma isdecimal_isdigit (s : string) :
  Str.isdecimal s = true -> Str.isdigit s = true.
Proof.
  unfold Str.isdecimal, Str.isdigit.
  destruct (Str.nonempty s); simpl; [|discriminate].
  induction s as [|c s IH]; simpl; [reflexivity|].
  intro H; apply andb_true_iff in H as [Hc Hs].
  apply decimal_char_facts in Hc as (_ & -> & _). simpl. now apply IH.
Qed.

Lemma rstrip_decimal (s : string) :
  Str.all_chars Str.isdecimal_char s = true -> Str.rstrip s = s.
Proof.
  induction s as [|c s IH]; simpl; [reflexivity|].
  intro H; apply andb_true_iff in H as [Hc Hs].
  rewrite (IH Hs). apply decimal_char_facts in Hc as (-> & _).
  destruct s; reflexivity.
Qed.

Lemma strip_decimal (s : string) :
  Str.all_chars Str.isdecimal_char s = true -> Str.strip s = s.
Proof.
  intro H. unfold Str.strip.
  destruct s as [|c s]; [reflexivity|].
  simpl in H. pose proof H as H'. apply andb_true_iff in H' as [Hc _].
  apply decimal_char_facts in Hc as (Hc & _).
  simpl Str.lstrip. rewrite Hc. apply rstrip_decimal. exact H.
Qed.

Lemma literal_digits_decimal (s : string) (prev_digit : bool) :
  Str.all_chars Str.isdecimal_char s = true ->
  prev_digit = true \/ Str.nonempty s = true ->
  Str.literal_digits prev_digit s = Some s.
Proof.
  revert prev_digit; induction s as [|c s IH]; intros b H Hb; simpl.
  - destruct Hb as [-> | Hb]; [reflexivity | discriminate Hb].
  - simpl in H. apply andb_true_iff in H as [Hc Hs].
    rewrite Hc, (IH true Hs (or_introl eq_refl)). reflexivity.
Qed.

(** On a run of decimal digits [int] returns its value, unless the run is
    longer than the digit limit. *)
Lemma int_decimal (max_str_digits : nat) (s : string) :
  Str.isdecimal s = true ->
  Str.int max_str_digits s =
  if ((0 <? max_str_digits) && (max_str_digits <? String.length s))%nat
  then Raises (ValueError
         ("Exceeds the limit (" ++ Str.of_nat max_str_digits
          ++ " digits) for integer string conversion: value has "
          ++ Str.of_nat (String.length s)
          ++ " digits; use sys.set_int_max_str_digits() to increase the limit")%string)
  else Returns (Str.decimal_value 0 s).
Proof.
  unfold Str.isdecimal. intros H.
  apply andb_true_iff in H as [Hne Hall].
  unfold Str.int. rewrite (strip_decimal s Hall).
  destruct s as [|c s]; [discriminate Hne|].
  pose proof Hall as Hc. simpl in Hc. apply andb_true_iff in Hc as [Hc _].
  apply decimal_char_facts in Hc as (_ & _ & -> & ->).
  rewrite (literal_digits_decimal _ false Hall (or_intror eq_refl)).
  destruct ((0 <? max_str_digits) && (max_str_digits <? String.length (String c s)))%nat;
    [reflexivity|].
  destruct (Str.decimal_value 0 (String c s)); reflexivity.
Qed.

(** ** The records of a row *)

Section Rows.

Variable lib : Selectolax.
Variable max_str_digits : nat.

(** The record the strict variant makes of a row. *)
Lemma strict_row_fields (row : node lib) (r : VersionRecord) :
  strict_row lib [] row = [r] ->
  exists c0 c1 c2 rest a,
    css row "td" = c0 :: c1 :: c2 :: rest /\ css_first c0 "a" = Some a /\
    r = {| version := PyStr (Str.strip (text a));
           url := dict_get (attributes a) "href" (PyStr "");
           timestamp := PyStr (Str.strip (text c1));
           artifacts := PyStr (Str.strip (text c2)) |}.
Proof.
  unfold strict_row.
  destruct (css row "td") as [|c0 [|c1 [|c2 rest]]]; try discriminate.
  destruct (css_first c0 "a") as [a|] eqn:Ea; [|discriminate].
  simpl. intro H; injection H as <-.
  exists c0, c1, c2, rest, a. auto.
Qed.

(** The artifacts field the lenient variant makes of a row. *)
Lemma lenient_row_artifacts (row : node lib) (r : VersionRecord) :
  lenient_row lib max_str_digits row [] = Returns [r] ->
  (Str.isdecimal (artifacts_text lib row) = true ->
   artifacts r = PyInt (Str.decimal_value 0 (artifacts_text lib row))) /\
  (Str.isdigit (artifacts_text lib row) = false ->
   artifacts r = PyStr (artifacts_text lib row)).
Proof.
  unfold lenient_row, artifacts_text.
  destruct (css row "td") as [|c0 [|c1 [|c2 rest]]]; try discriminate.
  destruct (Str.isdigit (text c2)) eqn:Ed; simpl.
  - destruct (Str.int max_str_digits (text c2)) as [z|e] eqn:Ei; simpl;
      [|discriminate].
    intro H; injection H as <-. simpl. split; [|discriminate].
    intro Hdec. rewrite (int_decimal _ _ Hdec) in Ei.
    destruct ((0 <? max_str_digits) && (max_str_digits <? String.length (text c2)))%nat;
      [discriminate Ei | injection Ei as <-; reflexivity].
  - intro H; injection H as <-. simpl. split; [|reflexivity].
    intro Hdec. apply isdecimal_isdigit in Hdec. congruence.
Qed.

(** A row whose artifacts cell converts does not stop the lenient loop. *)
Lemma lenient_row_returns (row : node lib) :
  (three_cells lib row = true ->
   converts max_str_digits (artifacts_text lib row) = true) ->
  exists vs, lenient_row lib max_str_digits row [] = Returns vs.
Proof.
  unfold three_cells, converts, lenient_row, artifacts_text.
  destruct (css row "td") as [|c0 [|c1 [|c2 rest]]];
    try (intros _; eexists; reflexivity).
  intro H. specialize (H eq_refl).
  destruct (Str.isdigit (text c2)) eqn:Ed; simpl in *.
  - apply andb_true_iff in H as [Hdec Hlim].
    rewrite (int_decimal _ _ Hdec).
    apply negb_true_iff in Hlim. rewrite Hlim. simpl. eexists; reflexivity.
  - eexists; reflexivity.
Qed.

Lemma lenient_loop_returns (rows : list (node lib)) :
  Forall (fun row => three_cells lib row = true ->
                     converts max_str_digits (artifacts_text lib row) = true) rows ->
  exists vs, for_each (lenient_row lib max_str_digits) rows [] = Returns vs.
Proof.
  induction 1 as [|row rows Hrow _ IH].
  - eexists; reflexivity.
  - rewrite lenient_loop_cons.
    destruct (lenient_row_returns row Hrow) as [v1 ->].
    destruct IH as [v2 ->]. simpl. eexists; reflexivity.
Qed.

End Rows.

(** ** Numeric coercion *)

(** C2, as stated, fails for both variants: on [page_mixed] the strict
    variant stores the text 10 where the rule gives the integer, and the
    lenient variant stores the untrimmed text of the cell that reads
    10 (estimate) between spaces. *)
Lemma coercion_as_specified_fails :
  (~ coercion_holds_strict (dom_lib EachOnce) page_mixed /\
   ~ coercion_holds_lenient (dom_lib EachOnce) 4300 page_mixed) /\
  (~ coercion_holds_strict (dom_lib PerAlternative) page_mixed /\
   ~ coercion_holds_lenient (dom_lib PerAlternative) 4300 page_mixed).
Proof.
  repeat split.
  - intro H; vm_compute in H; discriminate H.
  - intros (vs & H1 & H2); vm_compute in H1; injection H1 as <-;
      vm_compute in H2; discriminate H2.
  - intro H; vm_compute in H; discriminate H.
  - intros (vs & H1 & H2); vm_compute in H1; injection H1 as <-;
      vm_compute in H2; discriminate H2.
Qed.

(** C2, amended: the lenient variant stores the integer value when the text
    of the artifacts cell, untrimmed, consists solely of the decimal digits
    0 to 9, and the text itself, untrimmed, when it contains a character
    that is not a digit; it completes whenever every cell is of one of these
    two kinds (within the interpreter's digit limit).  The strict variant
    always stores the trimmed text. *)
Theorem artifacts_coercion (lib : Selectolax) (max_str_digits : nat)
  (content : string) :
  let rows_l := tl (css (HTMLParser lib content) "table tr") in
  let rows_s := css (HTMLParser lib content) "table tbody tr, table tr" in
  (Forall (fun row => three_cells lib row = true ->
                      converts max_str_digits (artifacts_text lib row) = true) rows_l ->
   exists vs, parse_pypi_inspector lib max_str_digits content = Returns vs) /\
  (forall vs, parse_pypi_inspector lib max_str_digits content = Returns vs ->
     Forall2 (fun row r =>
        (Str.isdecimal (artifacts_text lib row) = true ->
         artifacts r = PyInt (Str.decimal_value 0 (artifacts_text lib row))) /\
        (Str.isdigit (artifacts_text lib row) = false ->
         artifacts r = PyStr (artifacts_text lib row)))
       (filter (three_cells lib) rows_l) vs) /\
  Forall2 (fun row r => artifacts r = PyStr (Str.strip (artifacts_text lib row)))
    (filter (linked lib) rows_s) (versions (parse_real_pypi_page lib content)).
Proof.
  cbv zeta. split; [|split].
  - apply lenient_loop_returns.
  - intros vs H. apply lenient_loop_kept in H.
    revert H. apply Forall2_impl. intros row r. apply lenient_row_artifacts.
  - unfold parse_real_pypi_page; simpl.
    generalize (strict_loop_kept lib
                  (css (HTMLParser lib content) "table tbody tr, table tr")).
    apply Forall2_impl. intros row r H.
    apply strict_row_fields in H as (c0 & c1 & c2 & rest & a & Hc & _ & ->).
    unfold artifacts_text. rewrite Hc. reflexivity.
Qed.

Example page_mixed_artifacts :
  map artifacts (versions (parse_real_pypi_page (dom_lib PerAlternative) page_mixed))
  = [PyStr "10"; PyStr "10 (estimate)"; PyStr "10"; PyStr "10 (estimate)"] /\
  bind (parse_pypi_inspector (dom_lib PerAlternative) 4300 page_mixed)
    (fun vs => Returns (map artifacts vs))
  = Returns [PyInt 10; PyStr " 10 (estimate) "] /\
  map coercion_as_specified ["10"; " 10 (estimate) "]
  = [PyInt 10; PyStr "10 (estimate)"].
Proof. vm_compute. auto. Qed.

(** A cell made of a digit that is not decimal passes [isdigit] and makes
    [int], and with it the lenient variant, raise. *)
Example page_superscript_raises (e : engine) :
  parse_pypi_inspector (dom_lib e) 4300 page_superscript
  = Raises (ValueError
              ("invalid literal for int() with base 10: '"
               ++ String (ascii_of_nat 178) "'")%string).
Proof. destruct e; vm_compute; reflexivity. Qed.

(** ** Which rows become records *)

(** C3, as stated, fails: the only row of [page_no_anchor] has exactly three
    cells and neither variant makes a record of it, the strict one because
    its first cell has no link, the lenient one because it is the first
    row. *)
Lemma row_of_three_cells_excluded :
  (map (fun row => List.length (dom_css EachOnce row "td"))
     (dom_css EachOnce (parse_html page_no_anchor) "table tbody tr, table tr")
   = [3%nat] /\
   versions (parse_real_pypi_page (dom_lib EachOnce) page_no_anchor) = [] /\
   parse_pypi_inspector (dom_lib EachOnce) 4300 page_no_anchor = Returns []) /\
  (map (fun row => List.length (dom_css PerAlternative row "td"))
     (dom_css PerAlternative (parse_html page_no_anchor) "table tbody tr, table tr")
   = [3%nat; 3%nat] /\
   versions (parse_real_pypi_page (dom_lib PerAlternative) page_no_anchor) = [] /\
   parse_pypi_inspector (dom_lib PerAlternative) 4300 page_no_anchor = Returns []).
Proof. vm_compute. auto 10. Qed.

(** C3, amended: a row with fewer than three cells, so every row with
    exactly two, is excluded by both variants.  The strict variant makes one
    record of each row it visits that has three cells or more and a link in
    its first cell, and of no other; the lenient variant, when it completes,
    makes one record of each row after the first that has three cells or
    more, and of no other. *)
Theorem row_skip_rule (lib : Selectolax) (max_str_digits : nat) (content : string) :
  let rows_s := css (HTMLParser lib content) "table tbody tr, table tr" in
  let rows_l := css (HTMLParser lib content) "table tr" in
  Forall2 (fun row r => strict_row lib [] row = [r])
    (filter (fun row => three_cells lib row && has_link lib row) rows_s)
    (versions (parse_real_pypi_page lib content)) /\
  (forall vs, parse_pypi_inspector lib max_str_digits content = Returns vs ->
     Forall2 (fun row r => lenient_row lib max_str_digits row [] = Returns [r])
       (filter (three_cells lib) (tl rows_l)) vs) /\
  (forall row : node lib,
     (List.length (css row "td") < 3)%nat -> three_cells lib row = false) /\
  (forall row : node lib,
     List.length (css row "td") = 3%nat -> three_cells lib row = true).
Proof.
  cbv zeta. repeat split.
  - apply strict_loop_kept.
  - intros vs H. now apply lenient_loop_kept.
  - intros row H. unfold three_cells. apply Nat.leb_gt. exact H.
  - intros row H. unfold three_cells. rewrite H. reflexivity.
Qed.

(** On [page_two_three] the row of two cells is left out and the row of
    three is kept, by both variants; the strict variant visits it twice. *)
Example page_two_three_rows (e : engine) :
  map version (versions (parse_real_pypi_page (dom_lib PerAlternative) page_two_three))
  = [PyStr "3"; PyStr "3"] /\
  parse_pypi_inspector (dom_lib e) 4300 page_two_three
  = Returns [ {| version := PyStr "3"; url := PyStr "./3";
                 timestamp := PyStr "t3"; artifacts := PyInt 7 |} ].
Proof. destruct e; vm_compute; auto. Qed.

(** ** Count and order of the records *)

(** The records are those of a subsequence of the visits of the loop, each
    to a row of at least three cells, in the order of the visits; so there
    are no more records than visits, and a row of fewer than three cells
    gives no record.  The visits are what [css] returns for the selector of
    the variant: for the strict variant a row of the table may be visited
    more than once. *)
Lemma records_follow_rows (lib : Selectolax) (max_str_digits : nat)
  (content : string) :
  let rows_s := css (HTMLParser lib content) "table tbody tr, table tr" in
  let rows_l := css (HTMLParser lib content) "table tr" in
  let result := parse_real_pypi_page lib content in
  ((exists kept,
      subseq kept rows_s /\
      Forall (fun row => (3 <= List.length (css row "td"))%nat) kept /\
      Forall2 (fun row r => strict_row lib [] row = [r]) kept (versions result)) /\
   (List.length (versions result) <= List.length rows_s)%nat) /\
  (forall vs, parse_pypi_inspector lib max_str_digits content = Returns vs ->
     (exists kept,
        subseq kept rows_l /\
        Forall (fun row => (3 <= List.length (css row "td"))%nat) kept /\
        Forall2 (fun row r => lenient_row lib max_str_digits row [] = Returns [r])
          kept vs) /\
     (List.length vs <= List.length rows_l)%nat).
Proof.
  cbv zeta. split.
  - pose proof (strict_loop_kept lib
                  (css (HTMLParser lib content) "table tbody tr, table tr")) as H.
    split.
    + eexists. split; [apply subseq_filter|]. split; [|exact H].
      apply Forall_forall. intros row Hin. apply filter_In in Hin as [_ Hl].
      unfold linked in Hl. apply andb_true_iff in Hl as [Hl _].
      unfold three_cells in Hl. now apply Nat.leb_le.
    + unfold parse_real_pypi_page; simpl.
      rewrite <- (Forall2_length H). apply subseq_length, subseq_filter.
  - intros vs Hvs. apply lenient_loop_kept in Hvs. split.
    + eexists. split; [apply subseq_tl, subseq_filter|]. split; [|exact Hvs].
      apply Forall_forall. intros row Hin. apply filter_In in Hin as [_ Hl].
      unfold three_cells in Hl. now apply Nat.leb_le.
    + rewrite <- (Forall2_length Hvs).
      apply subseq_length, subseq_tl, subseq_filter.
Qed.

(** C6, the code against the claim: the table of the example page has three
    rows (the header row and two data rows); the loop of the strict variant
    visits five, the two data rows twice, once for each alternative of its
    selector, and returns four records, in the order 1.6.0, 1.5.0, 1.6.0,
    1.5.0: more records than the table has rows, and not in the order of
    its rows.  The lenient variant, whose selector has one alternative,
    visits each row once. *)
Theorem strict_visits_rows_twice :
  let lib := dom_lib PerAlternative in
  let tree := parse_html html_str in
  List.length (dom_css PerAlternative tree "table tr") = 3%nat /\
  map (fun row => map dom_text (dom_css PerAlternative row "td"))
    (dom_css PerAlternative tree "table tbody tr, table tr")
  = [ ["1.6.0"; "2025-05-04T13:21:22"; "10"];
      ["1.5.0"; "2024-10-18T18:22:29"; "31"];
      [];
      ["1.6.0"; "2025-05-04T13:21:22"; "10"];
      ["1.5.0"; "2024-10-18T18:22:29"; "31"] ] /\
  map version (versions (parse_real_pypi_page lib html_str))
  = [PyStr "1.6.0"; PyStr "1.5.0"; PyStr "1.6.0"; PyStr "1.5.0"] /\
  (List.length (versions (parse_real_pypi_page lib html_str))
   > List.length (dom_css PerAlternative tree "table tr"))%nat.
Proof. vm_compute. repeat split; lia. Qed.

(** ** The fields of the strict records *)

(** C10, the code against the claim: the url of a record is [None] when the
    link has an [href] to which the library gives no value, as it does for
    the link of [page_mixed] written with a bare [href]; the default of
    [get] is used only when the link has no [href] at all.  The row is
    visited twice, so the record comes twice. *)
Theorem strict_url_none :
  versions (parse_real_pypi_page (dom_lib PerAlternative) page_mixed)
  = [ {| version := PyStr "1.0"; url := PyStr "./1.0";
         timestamp := PyStr "t1"; artifacts := PyStr "10" |};
      {| version := PyStr "0.9"; url := PyNone;
         timestamp := PyStr "t0"; artifacts := PyStr "10 (estimate)" |};
      {| version := PyStr "1.0"; url := PyStr "./1.0";
         timestamp := PyStr "t1"; artifacts := PyStr "10" |};
      {| version := PyStr "0.9"; url := PyNone;
         timestamp := PyStr "t0"; artifacts := PyStr "10 (estimate)" |} ].
Proof. vm_compute. reflexivity. Qed.

(** An [href] with an empty value is given no value either. *)
Example strict_url_none_empty_href :
  map url (versions (parse_real_pypi_page (dom_lib PerAlternative)
     (q "<table><tr><td><a href=''>1.0</a></td><td>t</td><td>3</td></tr></table>")))
  = [PyNone; PyNone].
Proof. vm_compute. reflexivity. Qed.

(** Every record of the strict variant comes from a visit to a row with
    three cells or more whose first cell has a link; its version, timestamp
    and artifacts are the trimmed texts of the link, the second cell and the
    third cell; its url is what the dictionary of the link holds for [href]:
    the empty text without such a key, the value of the key, and [None] for
    a key without a value. *)
Lemma strict_record_fields (lib : Selectolax) (content : string)
  (r : VersionRecord) :
  In r (versions (parse_real_pypi_page lib content)) ->
  exists row c0 c1 c2 rest a,
    In row (css (HTMLParser lib content) "table tbody tr, table tr") /\
    css row "td" = c0 :: c1 :: c2 :: rest /\
    css_first c0 "a" = Some a /\
    version r = PyStr (Str.strip (text a)) /\
    timestamp r = PyStr (Str.strip (text c1)) /\
    artifacts r = PyStr (Str.strip (text c2)) /\
    url r = match dict_lookup (attributes a) "href" with
            | None => PyStr ""
            | Some (Some v) => PyStr v
            | Some None => PyNone
            end.
Proof.
  unfold parse_real_pypi_page; simpl. intro Hin.
  pose proof (strict_loop_kept lib
                (css (HTMLParser lib content) "table tbody tr, table tr")) as H.
  assert (Hrow : exists row,
             In row (filter (linked lib)
                       (css (HTMLParser lib content) "table tbody tr, table tr"))
             /\ strict_row lib [] row = [r]).
  { revert Hin. induction H as [|row r' rows rs Hr _ IH]; simpl.
    - intros [].
    - intros [<- | Hin]; [exists row; auto|].
      destruct (IH Hin) as (row' & Hin' & Hr'). exists row'; auto. }
  destruct Hrow as (row & Hrow & Hr).
  apply filter_In in Hrow as [Hrow _].
  apply strict_row_fields in Hr as (c0 & c1 & c2 & rest & a & Hc & Ha & ->).
  exists row, c0, c1, c2, rest, a. simpl. unfold dict_get.
  repeat split; auto.
Qed.

(** A link without any [href] gives the empty text. *)
Example strict_url_default :
  map url (versions (parse_real_pypi_page (dom_lib PerAlternative)
     "<table><tr><td><a>1.0</a></td><td>t</td><td>3</td></tr></table>"))
  = [PyStr ""; PyStr ""].
Proof. vm_compute. reflexivity. Qed.

(** ** The first row of the lenient variant *)

(** C9: the lenient variant never looks at the first row matched: what it
    returns is decided by the rows after the first, and when it returns
    records there are fewer of them than rows matched (or none of either). *)
Theorem first_row_dropped (lib : Selectolax) (max_str_digits : nat)
  (content1 content2 : string) :
  tl (css (HTMLParser lib content1) "table tr")
  = tl (css (HTMLParser lib content2) "table tr") ->
  parse_pypi_inspector lib max_str_digits content1
  = parse_pypi_inspector lib max_str_digits content2 /\
  (forall vs, parse_pypi_inspector lib max_str_digits content1 = Returns vs ->
     (List.length vs
      <= Nat.pred (List.length (css (HTMLParser lib content1) "table tr")))%nat).
Proof.
  intro H. unfold parse_pypi_inspector. rewrite H. split; [reflexivity|].
  intros vs Hvs. apply lenient_loop_kept in Hvs.
  rewrite <- (Forall2_length Hvs), <- H.
  eapply Nat.le_trans; [apply subseq_length, subseq_filter|].
  destruct (css (HTMLParser lib content1) "table tr"); simpl; lia.
Qed.

(** The table without a header row loses its first data row: the lenient
    variant returns for it what it returns for the table whose first row is
    a header. *)
Lemma first_row_dropped_witness :
  tl (css (HTMLParser (dom_lib EachOnce) page_no_header) "table tr")
  = tl (css (HTMLParser (dom_lib EachOnce) page_header) "table tr") /\
  parse_pypi_inspector (dom_lib EachOnce) 4300 page_no_header
  = parse_pypi_inspector (dom_lib EachOnce) 4300 page_header /\
  (forall vs, parse_pypi_inspector (dom_lib EachOnce) 4300 page_no_header = Returns vs ->
     (List.length vs
      <= Nat.pred (List.length (css (HTMLParser (dom_lib EachOnce) page_no_header)
                                  "table tr")))%nat).
Proof.
  assert (H : tl (css (HTMLParser (dom_lib EachOnce) page_no_header) "table tr")
              = tl (css (HTMLParser (dom_lib EachOnce) page_header) "table tr")).
  { vm_compute. reflexivity. }
  split; [exact H|].
  exact (first_row_dropped (dom_lib EachOnce) 4300 page_no_header page_header H).
Defined.

Example page_no_header_loses_first_row (e : engine) :
  parse_pypi_inspector (dom_lib e) 4300 page_no_header
  = Returns [ {| version := PyStr "1.0"; url := PyStr "./1.0";
                 timestamp := PyStr "t0"; artifacts := PyInt 2 |} ].
Proof. destruct e; vm_compute; reflexivity. Qed.

(** ** Absent elements *)


(** The empty page and an unrelated page give the empty result. *)
Example empty_page (e : engine) :
  parse_real_pypi_page (dom_lib e) EmptyString
  = {| project := PyNone; version_count := PyNone; versions := [] |} /\
  parse_real_pypi_page (dom_lib e) page_unrelated
  = {| project := PyNone; version_count := PyNone; versions := [] |}.
Proof. destruct e; vm_compute; auto. Qed.

(** ** Determinism *)

Section RunsDeterministic.

Variable L : Answers.
Hypothesis single : single_valued L.

Lemma css_first_runs_single (n : anode L) (query : string)
  (o1 o2 : option (anode L)) :
  css_first_runs L n query o1 -> css_first_runs L n query o2 -> o1 = o2.
Proof.
  intros (l1 & H1 & ->) (l2 & H2 & ->).
  now rewrite (css_single L single n query l1 l2 H1 H2).
Qed.

Lemma strict_row_runs_single (versions v1 v2 : list VersionRecord)
  (row : anode L) :
  strict_row_runs L versions row v1 -> strict_row_runs L versions row v2 ->
  v1 = v2.
Proof.
  intros H1 H2.
  destruct H1 as [cells1 Hc1 Hl1 | c0 c1 c2 rest Hc1 Ha1
                 | c0 c1 c2 rest a1 v t a attrs Hc1 Ha1 Hv1 Hd1 Ht1 Hx1];
    destruct H2 as [cells2 Hc2 Hl2 | c0' c1' c2' rest' Hc2 Ha2
                   | c0' c1' c2' rest' a2 v' t' a' attrs' Hc2 Ha2 Hv2 Hd2 Ht2 Hx2];
    try reflexivity;
    pose proof (css_single L single row "td" _ _ Hc1 Hc2) as E;
    try (subst; simpl in *; lia).
  - injection E as <- <- <- <-.
    pose proof (css_first_runs_single _ _ _ _ Ha1 Ha2) as E'. discriminate E'.
  - injection E as <- <- <- <-.
    pose proof (css_first_runs_single _ _ _ _ Ha1 Ha2) as E'. discriminate E'.
  - injection E as <- <- <- <-.
    pose proof (css_first_runs_single _ _ _ _ Ha1 Ha2) as E'.
    injection E' as <-.
    rewrite (text_single L single _ _ _ Hv1 Hv2),
            (attributes_single L single _ _ _ Hd1 Hd2),
            (text_single L single _ _ _ Ht1 Ht2),
            (text_single L single _ _ _ Hx1 Hx2).
    reflexivity.
Qed.

Lemma strict_loop_runs_single (rows : list (anode L))
  (versions v1 v2 : list VersionRecord) :
  strict_loop_runs L versions rows v1 -> strict_loop_runs L versions rows v2 ->
  v1 = v2.
Proof.
  intro H1. revert v2.
  induction H1 as [versions | versions versions' versions'' row rows Hrow _ IH];
    intros v2 H2; inversion H2; subst.
  - reflexivity.
  - apply IH.
    match goal with
    | Hr : strict_row_runs L versions row ?w |- _ =>
        now rewrite (strict_row_runs_single _ _ _ _ Hrow Hr)
    end.
Qed.

Lemma project_runs_single (tree : anode L) (p1 p2 : pyval) :
  project_runs L tree p1 -> project_runs L tree p2 -> p1 = p2.
Proof.
  intros [H1 | i1 d1 H1 Hd1] [H2 | i2 d2 H2 Hd2];
    pose proof (css_first_runs_single _ _ _ _ H1 H2) as E;
    try discriminate E; [reflexivity|].
  injection E as <-. now rewrite (attributes_single L single _ _ _ Hd1 Hd2).
Qed.

Lemma message_runs_single (tree : anode L) (m1 m2 : pyval) :
  message_runs L tree m1 -> message_runs L tree m2 -> m1 = m2.
Proof.
  intros [H1 | n1 t1 H1 Ht1] [H2 | n2 t2 H2 Ht2];
    pose proof (css_first_runs_single _ _ _ _ H1 H2) as E;
    try discriminate E; [reflexivity|].
  injection E as <-. now rewrite (text_single L single _ _ _ Ht1 Ht2).
Qed.

End RunsDeterministic.

(** A library given by functions answers every call in one way, and the runs
    over it are the values of the functions of the embedding. *)
Lemma answers_of_single_valued (lib : Selectolax) : single_valued (answers_of lib).
Proof. split; simpl; intros; congruence. Qed.

Lemma strict_row_runs_of (lib : Selectolax) (versions : list VersionRecord)
  (row : node lib) :
  strict_row_runs (answers_of lib) versions row (strict_row lib versions row).
Proof.
  unfold strict_row.
  destruct (css row "td") as [|c0 [|c1 [|c2 rest]]] eqn:Ec.
  - apply (row_short (answers_of lib) _ _ []); simpl; [now rewrite Ec | lia].
  - apply (row_short (answers_of lib) _ _ [c0]); simpl; [now rewrite Ec | lia].
  - apply (row_short (answers_of lib) _ _ [c0; c1]); simpl; [now rewrite Ec | lia].
  - destruct (css_first c0 "a") as [a|] eqn:Ea.
    + apply (row_recorded (answers_of lib) _ _ c0 c1 c2 rest a); simpl;
        try reflexivity; [now rewrite Ec|].
      exists (css c0 "a"). split; [reflexivity | symmetry; exact Ea].
    + apply (row_without_link (answers_of lib) _ _ c0 c1 c2 rest); simpl;
        [now rewrite Ec|].
      exists (css c0 "a"). split; [reflexivity | symmetry; exact Ea].
Qed.

Lemma strict_loop_runs_of (lib : Selectolax) (rows : list (node lib))
  (versions : list VersionRecord) :
  strict_loop_runs (answers_of lib) versions rows
    (fold_left (strict_row lib) rows versions).
Proof.
  revert versions; induction rows as [|row rows IH]; intro versions; simpl.
  - constructor.
  - eapply loop_row; [apply strict_row_runs_of | apply IH].
Qed.

Lemma parse_real_pypi_page_runs_of (lib : Selectolax) (html_str : string) :
  parse_real_pypi_page_runs (answers_of lib) html_str
    (parse_real_pypi_page lib html_str).
Proof.
  unfold parse_real_pypi_page.
  apply (page_run (answers_of lib) html_str (HTMLParser lib html_str) _ _
           (css (HTMLParser lib html_str) "table tbody tr, table tr")).
  - reflexivity.
  - destruct (css_first (HTMLParser lib html_str) (q "input[name='project']"))
      as [i|] eqn:E.
    + apply (project_found (answers_of lib) _ i (attributes i)); [|reflexivity].
      eexists; split; [reflexivity | symmetry; exact E].
    + apply project_absent. eexists; split; [reflexivity | symmetry; exact E].
  - destruct (css_first (HTMLParser lib html_str) "p") as [n|] eqn:E.
    + apply (message_found (answers_of lib) _ n (text n)); [|reflexivity].
      eexists; split; [reflexivity | symmetry; exact E].
    + apply message_absent. eexists; split; [reflexivity | symmetry; exact E].
  - reflexivity.
  - apply strict_loop_runs_of.
Qed.

(** Two runs over a library whose calls have one answer agree. *)
Lemma runs_agree (L : Answers) (html_str : string) (r1 r2 : PageResult) :
  single_valued L ->
  parse_real_pypi_page_runs L html_str r1 ->
  parse_real_pypi_page_runs L html_str r2 ->
  r1 = r2.
Proof.
  intros single H1 H2.
  destruct H1 as [tree1 p1 m1 rows1 v1 Ht1 Hp1 Hm1 Hr1 Hv1].
  destruct H2 as [tree2 p2 m2 rows2 v2 Ht2 Hp2 Hm2 Hr2 Hv2].
  pose proof (parser_single L single _ _ _ Ht1 Ht2) as <-.
  pose proof (css_single L single _ _ _ _ Hr1 Hr2) as <-.
  rewrite (project_runs_single L single _ _ _ Hp1 Hp2),
          (message_runs_single L single _ _ _ Hm1 Hm2),
          (strict_loop_runs_single L single _ _ _ _ Hv1 Hv2).
  reflexivity.
Qed.

(** C7: two runs of the strict variant on the same text return the same
    result, whatever the text, as soon as every call of the library has one
    answer for its arguments: the statements of the function add no choice of
    their own, and nothing but the text and the library enters a run (no
    network, no clock, no state kept between runs). *)
Theorem extraction_deterministic (L : Answers) (html_str : string)
  (r1 r2 : PageResult) :
  single_valued L ->
  parse_real_pypi_page_runs L html_str r1 ->
  parse_real_pypi_page_runs L html_str r2 ->
  r1 = r2.
Proof. exact (runs_agree L html_str r1 r2). Qed.

(** Two runs on the example page: the value of the embedding, and the result
    written out. *)
Lemma html_str_result_runs :
  parse_real_pypi_page_runs (answers_of (dom_lib PerAlternative)) html_str
    html_str_result.
Proof.
  assert (E : html_str_result = parse_real_pypi_page (dom_lib PerAlternative) html_str)
    by (vm_compute; reflexivity).
  rewrite E. apply parse_real_pypi_page_runs_of.
Qed.

Lemma extraction_deterministic_witness :
  parse_real_pypi_page (dom_lib PerAlternative) html_str = html_str_result.
Proof.
  exact (extraction_deterministic (answers_of (dom_lib PerAlternative)) html_str
           _ _ (answers_of_single_valued (dom_lib PerAlternative))
           (parse_real_pypi_page_runs_of (dom_lib PerAlternative) html_str)
           html_str_result_runs).
Defined.

(** The runs over a library of functions are the value of the embedding and
    no other. *)
Lemma parse_real_pypi_page_runs_iff (lib : Selectolax) (html_str : string)
  (r : PageResult) :
  parse_real_pypi_page_runs (answers_of lib) html_str r <->
  r = parse_real_pypi_page lib html_str.
Proof.
  split.
  - intro H.
    apply (runs_agree (answers_of lib) html_str r
             (parse_real_pypi_page lib html_str) (answers_of_single_valued lib) H).
    apply parse_real_pypi_page_runs_of.
  - intros ->. apply parse_real_pypi_page_runs_of.
Qed.

(** The hypothesis is needed: over a library with two answers to one query
    the same text has runs with different results. *)
Lemma two_answers_two_results :
  parse_real_pypi_page_runs two_answers EmptyString
    {| project := PyNone; version_count := PyNone; versions := [] |} /\
  parse_real_pypi_page_runs two_answers EmptyString
    {| project := PyNone; version_count := PyStr "Retrieved 20 versions.";
       versions := [] |}.
Proof.
  split.
  - apply (page_run two_answers _ tt _ _ []); simpl; auto.
    + apply project_absent. exists []. simpl; auto.
    + apply message_absent. exists []. simpl; auto.
    + constructor.
  - apply (page_run two_answers _ tt _ _ []); simpl; auto.
    + apply project_absent. exists []. simpl; auto.
    + apply (message_found two_answers tt tt); [|reflexivity].
      exists [tt]. simpl; auto.
    + constructor.
Qed.

Lemma extraction_depends_on_tree (lib : Selectolax) (max_str_digits : nat)
  (content1 content2 : string) :
  HTMLParser lib content1 = HTMLParser lib content2 ->
  parse_real_pypi_page lib content1 = parse_real_pypi_page lib content2 /\
  parse_pypi_inspector lib max_str_digits content1
  = parse_pypi_inspector lib max_str_digits content2.
Proof.
  intro H. unfold parse_real_pypi_page, parse_pypi_inspector.
  rewrite H. split; reflexivity.
Qed.

(** ** The fetcher *)

Section FetcherFacts.

Variable net : Urllib.

(** The guard on [url] passes exactly the non-empty texts. *)
Lemma url_guard (url : pyobj) :
  negb (truthy url) || negb (isinstance_str url) = false <->
  exists s, url = ObjStr s /\ s <> EmptyString.
Proof.
  split.
  - destruct url as [| b | z | s | b | l]; simpl;
      try discriminate; try (rewrite orb_true_r; discriminate).
    destruct s; simpl; [discriminate|].
    intros _. eexists; split; [reflexivity | discriminate].
  - intros (s & -> & Hs). destruct s; [contradiction | reflexivity].
Qed.

(** Whatever is raised inside the [try] block is printed and turned into
    [None]. *)
Lemma try_block_returns (s : string) (timeout : Z) :
  s <> EmptyString ->
  exists r : option unicode,
    snd (run (fetch_url_content net (ObjStr s) timeout)) = Returns r.
Proof.
  intro Hs. unfold fetch_url_content, run.
  destruct s as [|c s]; [contradiction|]. simpl truthy. simpl isinstance_str.
  cbn [negb orb str_of].
  unfold try_except, io_bind, lift, emit, ret.
  destruct (Request net (String c s) headers) as [rq|e]; simpl;
    [|eexists; reflexivity].
  destruct (urlopen net rq timeout) as [rs|e]; simpl; [|eexists; reflexivity].
  destruct (read rs) as [content|e]; simpl; [|eexists; reflexivity].
  destruct (decode net content _ "replace") as [t|e]; simpl;
    eexists; reflexivity.
Qed.

(** When every call of the [try] block returns, so does the function, with
    the text decoded with the declared charset or, without one, UTF-8. *)
Lemma fetch_decodes (s : string) (timeout : Z) (rq : request net)
  (rs : response net) (content : list byte) (t : unicode) :
  s <> EmptyString ->
  Request net s headers = Returns rq ->
  urlopen net rq timeout = Returns rs ->
  read rs = Returns content ->
  decode net content (or_else (get_content_charset rs) "utf-8") "replace"
  = Returns t ->
  run (fetch_url_content net (ObjStr s) timeout)
  = ([Urlopen s timeout; Read], Returns (Some t)).
Proof.
  intros Hs Hrq Hopen Hread Hdec.
  unfold fetch_url_content, run.
  destruct s as [|c s]; [contradiction|].
  cbn [truthy isinstance_str Str.nonempty negb orb str_of].
  unfold try_except, io_bind, lift, emit, ret.
  rewrite Hrq; simpl. rewrite Hopen; simpl. rewrite Hread; simpl.
  rewrite Hdec. reflexivity.
Qed.

End FetcherFacts.

(** The run of [fetch_url_content] on a non-empty text, step by step. *)
Lemma fetch_run (net : Urllib) (s : string) (timeout : Z) :
  s <> EmptyString ->
  run (fetch_url_content net (ObjStr s) timeout) =
  match Request net s headers with
  | Raises e => ([Print (except_line e s)], Returns None)
  | Returns rq =>
      match urlopen net rq timeout with
      | Raises e => ([Urlopen s timeout; Print (except_line e s)], Returns None)
      | Returns rs =>
          match read rs with
          | Raises e =>
              ([Urlopen s timeout; Read; Print (except_line e s)], Returns None)
          | Returns content =>
              match decode net content
                      (or_else (get_content_charset rs) "utf-8") "replace" with
              | Raises e =>
                  ([Urlopen s timeout; Read; Print (except_line e s)],
                   Returns None)
              | Returns t => ([Urlopen s timeout; Read], Returns (Some t))
              end
          end
      end
  end.
Proof.
  intro Hs. unfold fetch_url_content, run.
  destruct s as [|c s]; [contradiction|].
  cbn [truthy isinstance_str Str.nonempty negb orb str_of].
  unfold try_except, io_bind, lift, emit, ret.
  destruct (Request net (String c s) headers) as [rq|e]; simpl; [|reflexivity].
  destruct (urlopen net rq timeout) as [rs|e]; simpl; [|reflexivity].
  destruct (read rs) as [content|e]; simpl; [|reflexivity].
  destruct (decode net content _ "replace") as [t|e]; reflexivity.
Qed.

(** C4: [fetch_url_content] raises exactly when [url] is not a text or is the
    empty text; what it raises then is the [ValueError] of its first
    statement, before any event (no network use, nothing printed).  For a
    non-empty text it returns, the decoded text or [None]; in particular it
    returns [None] when [urlopen] or [read] raises, be it for an HTTP error
    status, a network error or a timeout. *)
Theorem fetch_raises_only_on_invalid_url (net : Urllib) (url : pyobj)
  (timeout : Z) :
  let trace := fst (run (fetch_url_content net url timeout)) in
  let result := snd (run (fetch_url_content net url timeout)) in
  ((exists e, result = Raises e) <->
   (isinstance_str url = false \/ url = ObjStr EmptyString)) /\
  (forall e, result = Raises e ->
     e = ValueError "URL must be a non-empty string" /\ trace = []) /\
  (forall s, url = ObjStr s -> s <> EmptyString ->
     exists r : option unicode, result = Returns r) /\
  (forall s rq e, url = ObjStr s -> s <> EmptyString ->
     Request net s headers = Returns rq -> urlopen net rq timeout = Raises e ->
     result = Returns None) /\
  (forall s rq rs e, url = ObjStr s -> s <> EmptyString ->
     Request net s headers = Returns rq -> urlopen net rq timeout = Returns rs ->
     read rs = Raises e -> result = Returns None).
Proof.
  cbv zeta.
  assert (Hbad : negb (truthy url) || negb (isinstance_str url) = true ->
                 run (fetch_url_content net url timeout)
                 = ([], Raises (ValueError "URL must be a non-empty string"))).
  { intro H. unfold fetch_url_content, run. rewrite H. reflexivity. }
  destruct (negb (truthy url) || negb (isinstance_str url)) eqn:G.
  - rewrite (Hbad eq_refl); simpl. repeat split.
    + intros _. destruct url as [| b | z | s | b | l]; auto.
      destruct s; [auto | discriminate G].
    + intros _. eexists; reflexivity.
    + injection H as <-. reflexivity.
    + intros s -> Hs. destruct s; [contradiction | discriminate G].
    + intros s rq e -> Hs. destruct s; [contradiction | discriminate G].
    + intros s rq rs e -> Hs. destruct s; [contradiction | discriminate G].
  - apply url_guard in G as (s & -> & Hs).
    destruct (try_block_returns net s timeout Hs) as [r Hr].
    repeat split.
    + rewrite Hr. intros [e He]; discriminate He.
    + intros [H | H]; [discriminate H | injection H as ->; contradiction].
    + rewrite Hr in H; discriminate H.
    + rewrite Hr in H; discriminate H.
    + intros s' H _. exists r. exact Hr.
    + intros s' rq e H _ Hrq Hopen. injection H as <-.
      unfold fetch_url_content, run.
      destruct s as [|c s]; [contradiction|]. cbn [truthy isinstance_str Str.nonempty negb orb str_of].
      unfold try_except, io_bind, lift, emit, ret.
      rewrite Hrq; simpl. rewrite Hopen; simpl. reflexivity.
    + intros s' rq rs e H _ Hrq Hopen Hread. injection H as <-.
      unfold fetch_url_content, run.
      destruct s as [|c s]; [contradiction|]. cbn [truthy isinstance_str Str.nonempty negb orb str_of].
      unfold try_except, io_bind, lift, emit, ret.
      rewrite Hrq; simpl. rewrite Hopen; simpl. rewrite Hread; simpl. reflexivity.
Qed.

(** The failures the tests of the repository simulate, and a URL without a
    scheme. *)
Example fetch_failures :
  run (fetch_url_content (fails_with (HTTPError 404 "Not Found"))
         (ObjStr "https://example.com") default_timeout)
  = ([Urlopen "https://example.com" 10;
      Print "HTTP Error 404: Not Found for URL: https://example.com"],
     Returns None) /\
  run (fetch_url_content (fails_with (URLError "Connection refused"))
         (ObjStr "https://example.com") default_timeout)
  = ([Urlopen "https://example.com" 10;
      Print "URL Error: Connection refused for URL: https://example.com"],
     Returns None) /\
  run (fetch_url_content (fails_with (OtherException "timed out"))
         (ObjStr "https://example.com") 30)
  = ([Urlopen "https://example.com" 30;
      Print "Unexpected error: timed out for URL: https://example.com"],
     Returns None) /\
  run (fetch_url_content (serves [] None) (ObjStr "example.com") default_timeout)
  = ([Print "Value Error: unknown url type: 'example.com' for URL: example.com"],
     Returns None) /\
  run (fetch_url_content (serves [] None) (ObjStr EmptyString) default_timeout)
  = ([], Raises (ValueError "URL must be a non-empty string")) /\
  run (fetch_url_content (serves [] None) ObjNone default_timeout)
  = ([], Raises (ValueError "URL must be a non-empty string")).
Proof. vm_compute. repeat split. Qed.

(** C8, as stated, fails: when the content type declares a charset the codec
    registry does not know, no text is produced, whatever the body: the
    lookup error is caught and the call returns [None]. *)
Lemma unknown_charset_gives_none :
  run (fetch_url_content (serves [x61; x62; x63] (Some "x-unknown"))
         (ObjStr "https://example.com") default_timeout)
  = ([Urlopen "https://example.com" 10; Read;
      Print "Unexpected error: unknown encoding: x-unknown for URL: https://example.com"],
     Returns None).
Proof. vm_compute. reflexivity. Qed.

(** C8, amended: the body is decoded with the charset the content type
    declares when there is one that is not empty, with UTF-8 otherwise, and
    with the error handler that replaces invalid bytes.  Whenever the decoding
    returns, the call returns the decoded text; whenever it raises, as it
    does with a lookup error for a charset the interpreter does not know, the
    exception is caught and the call returns [None]. *)
Theorem decodes_with_declared_charset (net : Urllib) (s : string) (timeout : Z)
  (rq : request net) (rs : response net) (content : list byte) :
  s <> EmptyString ->
  Request net s headers = Returns rq ->
  urlopen net rq timeout = Returns rs ->
  read rs = Returns content ->
  let encoding :=
    match get_content_charset rs with
    | Some charset => if Str.nonempty charset then charset else "utf-8"
    | None => "utf-8"
    end in
  let result := snd (run (fetch_url_content net (ObjStr s) timeout)) in
  (forall t, decode net content encoding "replace" = Returns t ->
             result = Returns (Some t)) /\
  (forall e, decode net content encoding "replace" = Raises e ->
             result = Returns None).
Proof.
  intros Hs Hrq Hopen Hread. cbv zeta.
  rewrite (fetch_run net s timeout Hs), Hrq, Hopen, Hread.
  unfold or_else.
  split; [intros t Hdec | intros e Hdec]; rewrite Hdec; reflexivity.
Qed.

Lemma decodes_with_declared_charset_witness :
  snd (run (fetch_url_content (serves [x61; xff; x62] None)
              (ObjStr "https://example.com") default_timeout))
  = Returns (Some [97; 65533; 98]%N) /\
  snd (run (fetch_url_content (serves [x61; xff; x62] (Some "x-unknown"))
              (ObjStr "https://example.com") default_timeout))
  = Returns None.
Proof.
  split.
  - apply (decodes_with_declared_charset (serves [x61; xff; x62] None)
             "https://example.com" default_timeout
             "https://example.com" (Returns [x61; xff; x62], None)
             [x61; xff; x62]);
      [discriminate | reflexivity | reflexivity | reflexivity | reflexivity].
  - apply (decodes_with_declared_charset (serves [x61; xff; x62] (Some "x-unknown"))
             "https://example.com" default_timeout
             "https://example.com" (Returns [x61; xff; x62], Some "x-unknown")
             [x61; xff; x62]
             ltac:(discriminate) eq_refl eq_refl eq_refl)
      with (e := LookupError "unknown encoding: x-unknown").
    reflexivity.
Defined.

(** With the registry of the examples a body is always decoded when no
    charset is declared, as UTF-8 with U+FFFD for what is invalid, and when
    Latin-1 is declared, byte for byte. *)
Lemma known_charsets_decode (body : list byte) (url : string) (timeout : Z) :
  url <> EmptyString -> has_scheme (unwrap url) = true ->
  snd (run (fetch_url_content (serves body None) (ObjStr url) timeout))
  = Returns (Some (utf8_decode utf8_start body)) /\
  snd (run (fetch_url_content (serves body (Some "latin-1")) (ObjStr url) timeout))
  = Returns (Some (map Byte.to_N body)).
Proof.
  intros Hne H. split.
  - rewrite (fetch_decodes (serves body None) url timeout
               (unwrap url) (Returns body, None) body (utf8_decode utf8_start body));
      simpl; auto. now rewrite H.
  - rewrite (fetch_decodes (serves body (Some "latin-1")) url timeout
               (unwrap url) (Returns body, Some "latin-1") body (map Byte.to_N body));
      simpl; auto. now rewrite H.
Qed.

(** * Further properties *)

(** ** Texts made of digits *)

Lemma digit_char_facts (c : ascii) :
  Str.isdigit_char c = true ->
  Str.isspace c = false /\ Ascii.eqb c "+" = false /\ Ascii.eqb c "-" = false /\
  (Str.isdecimal_char c = false -> (Str.code c =? 95) = false).
Proof.
  destruct c as [[] [] [] [] [] [] [] []]; vm_compute; intro H;
    try discriminate H; repeat split.
Qed.

Lemma rstrip_digit (s : string) :
  Str.all_chars Str.isdigit_char s = true -> Str.rstrip s = s.
Proof.
  induction s as [|c s IH]; simpl; [reflexivity|].
  intro H; apply andb_true_iff in H as [Hc Hs].
  rewrite (IH Hs). apply digit_char_facts in Hc as (-> & _).
  destruct s; reflexivity.
Qed.

Lemma literal_digits_not_decimal (s : string) (prev_digit : bool) :
  Str.all_chars Str.isdigit_char s = true ->
  Str.all_chars Str.isdecimal_char s = false ->
  Str.literal_digits prev_digit s = None.
Proof.
  revert prev_digit; induction s as [|c s IH]; intros b Hd Hn; simpl in *.
  - discriminate Hn.
  - apply andb_true_iff in Hd as [Hc Hs].
    destruct (Str.isdecimal_char c) eqn:Ec; simpl in Hn.
    + now rewrite (IH true Hs Hn).
    + apply digit_char_facts in Hc as (_ & _ & _ & H95).
      now rewrite (H95 Ec).
Qed.

(** [int] refuses a text that passes [isdigit] without being decimal. *)
Lemma int_not_decimal (max_str_digits : nat) (s : string) :
  Str.isdigit s = true -> Str.isdecimal s = false ->
  Str.int max_str_digits s
  = Raises (ValueError
              ("invalid literal for int() with base 10: " ++ Str.repr s)%string).
Proof.
  unfold Str.isdigit, Str.isdecimal. intros Hd Hn.
  apply andb_true_iff in Hd as [Hne Hall]. rewrite Hne in Hn; simpl in Hn.
  unfold Str.int, Str.strip.
  destruct s as [|c s]; [discriminate Hne|].
  pose proof Hall as Hc. simpl in Hc. apply andb_true_iff in Hc as [Hc _].
  apply digit_char_facts in Hc as (Hsp & Hplus & Hminus & _).
  simpl Str.lstrip. rewrite Hsp, (rstrip_digit _ Hall), Hplus, Hminus.
  now rewrite (literal_digits_not_decimal _ false Hall Hn).
Qed.

Lemma decimal_value_nonneg (s : string) (acc : Z) :
  0 <= acc -> Str.all_chars Str.isdecimal_char s = true ->
  0 <= Str.decimal_value acc s.
Proof.
  revert acc; induction s as [|c s IH]; intros acc Hacc H;
    cbn [Str.decimal_value Str.all_chars] in *.
  - exact Hacc.
  - apply andb_true_iff in H as [Hc Hs]. apply IH; [|exact Hs].
    unfold Str.isdecimal_char, Str.between in Hc.
    apply andb_true_iff in Hc as [Hlo _]. apply Z.leb_le in Hlo. lia.
Qed.

Lemma Forall2_In_right {A B : Type} (R : A -> B -> Prop) (l : list A)
  (l' : list B) (y : B) :
  Forall2 R l l' -> In y l' -> exists x, In x l /\ R x y.
Proof.
  induction 1 as [|x y' l l' Hxy _ IH]; simpl.
  - intros [].
  - intros [<- | Hin]; [exists x; auto|].
    destruct (IH Hin) as (x' & Hx' & HR). exists x'; auto.
Qed.

(** ** The lenient variant, row by row *)

Section LenientRows.

Variable lib : Selectolax.
Variable max_str_digits : nat.

(** What the lenient variant does with a row of three cells or more: it
    raises when the artifacts cell does not convert and adds one record
    otherwise. *)
Lemma lenient_row_cases (row : node lib) :
  three_cells lib row = true ->
  if converts max_str_digits (artifacts_text lib row)
  then exists r, lenient_row lib max_str_digits row [] = Returns [r]
  else exists msg, lenient_row lib max_str_digits row [] = Raises (ValueError msg).
Proof.
  unfold three_cells, converts, lenient_row, artifacts_text.
  destruct (css row "td") as [|c0 [|c1 [|c2 rest]]]; try discriminate.
  intros _.
  destruct (Str.isdigit (text c2)) eqn:Ed; simpl.
  - destruct (Str.isdecimal (text c2)) eqn:Edec; simpl.
    + rewrite (int_decimal _ _ Edec).
      destruct ((0 <? max_str_digits) && (max_str_digits <? String.length (text c2)))%nat;
        simpl; eexists; reflexivity.
    + rewrite (int_not_decimal _ _ Ed Edec). simpl. eexists; reflexivity.
  - eexists; reflexivity.
Qed.

Lemma lenient_loop_raises (rows : list (node lib)) :
  (exists e, for_each (lenient_row lib max_str_digits) rows [] = Raises e) <->
  Exists (fun row => three_cells lib row = true /\
                     converts max_str_digits (artifacts_text lib row) = false) rows.
Proof.
  induction rows as [|row rows IH].
  - simpl. split; [intros [e H]; discriminate H | intro H; inversion H].
  - rewrite lenient_loop_cons. split.
    + intros [e H].
      destruct (three_cells lib row) eqn:E3.
      * pose proof (lenient_row_cases row E3) as Hc.
        destruct (converts max_str_digits (artifacts_text lib row)) eqn:Ec.
        -- destruct Hc as [r Hr]. rewrite Hr in H. simpl in H.
           apply Exists_cons_tl, IH.
           destruct (for_each (lenient_row lib max_str_digits) rows [])
             as [ws|e']; [discriminate H | now exists e'].
        -- apply Exists_cons_hd. auto.
      * rewrite (lenient_row_short lib max_str_digits row E3) in H. simpl in H.
        apply Exists_cons_tl, IH.
        destruct (for_each (lenient_row lib max_str_digits) rows [])
          as [ws|e']; [discriminate H | now exists e'].
    + intro H.
      destruct (lenient_row lib max_str_digits row []) as [vs|e] eqn:Er;
        [|now exists e].
      simpl. inversion H as [? ? [E3 Ec] | ? ? Hex]; subst.
      * pose proof (lenient_row_cases row E3) as Hc. rewrite Ec in Hc.
        destruct Hc as [msg Hm]. congruence.
      * apply IH in Hex as [e He]. rewrite He. now exists e.
Qed.

Lemma lenient_loop_raises_value_error (rows : list (node lib)) (e : exn) :
  for_each (lenient_row lib max_str_digits) rows [] = Raises e ->
  exists msg, e = ValueError msg.
Proof.
  induction rows as [|row rows IH].
  - discriminate.
  - rewrite lenient_loop_cons.
    destruct (lenient_row lib max_str_digits row []) as [vs|e'] eqn:Er; simpl.
    + destruct (for_each (lenient_row lib max_str_digits) rows []) as [ws|e''];
        simpl; [discriminate|].
      intro H; injection H as <-. now apply IH.
    + intro H; injection H as <-.
      destruct (three_cells lib row) eqn:E3.
      * pose proof (lenient_row_cases row E3) as Hc.
        destruct (converts max_str_digits (artifacts_text lib row)).
        -- destruct Hc as [r Hr]. congruence.
        -- destruct Hc as [msg Hm]. exists msg. congruence.
      * rewrite (lenient_row_short lib max_str_digits row E3) in Er.
        discriminate Er.
Qed.

(** The record the lenient variant makes of a row. *)
Lemma lenient_row_fields (row : node lib) (r : VersionRecord) :
  lenient_row lib max_str_digits row [] = Returns [r] ->
  exists c0 c1 c2 rest,
    css row "td" = c0 :: c1 :: c2 :: rest /\
    timestamp r = PyStr (text c1) /\
    match css_first c0 "a" with
    | Some a => version r = PyStr (text a) /\
                url r = dict_get (attributes a) "href" (PyStr "")
    | None => version r = PyNone /\ url r = PyNone
    end /\
    (artifacts r = PyStr (text c2) \/
     exists z, artifacts r = PyInt z /\ 0 <= z).
Proof.
  unfold lenient_row.
  destruct (css row "td") as [|c0 [|c1 [|c2 rest]]]; try discriminate.
  intro H. exists c0, c1, c2, rest. split; [reflexivity|].
  destruct (Str.isdigit (text c2)) eqn:Ed; simpl in H.
  - destruct (Str.isdecimal (text c2)) eqn:Edec.
    + rewrite (int_decimal _ _ Edec) in H.
      destruct ((0 <? max_str_digits) && (max_str_digits <? String.length (text c2)))%nat;
        simpl in H; [discriminate H|].
      injection H as <-. simpl. split; [reflexivity|].
      split; [destruct (css_first c0 "a"); auto|].
      right. eexists; split; [reflexivity|].
      apply decimal_value_nonneg; [lia|].
      unfold Str.isdecimal in Edec. now apply andb_true_iff in Edec as [_ ?].
    + rewrite (int_not_decimal _ _ Ed Edec) in H. discriminate H.
  - injection H as <-. simpl. split; [reflexivity|].
    split; [destruct (css_first c0 "a"); auto | now left].
Qed.

End LenientRows.

(** X1: every record of the lenient variant comes from a row after the first
    with three cells or more; its timestamp is the text of the second cell,
    untrimmed; its version and url are both absent when the first cell has no
    link, and otherwise the untrimmed text of the link and its [href] (the
    empty text without one); its artifacts field is the untrimmed text of the
    third cell or an integer that is not negative. *)
Theorem lenient_record_fields (lib : Selectolax) (max_str_digits : nat)
  (content : string) (vs : list VersionRecord) (r : VersionRecord) :
  parse_pypi_inspector lib max_str_digits content = Returns vs ->
  In r vs ->
  exists row c0 c1 c2 rest,
    In row (tl (css (HTMLParser lib content) "table tr")) /\
    css row "td" = c0 :: c1 :: c2 :: rest /\
    timestamp r = PyStr (text c1) /\
    match css_first c0 "a" with
    | Some a => version r = PyStr (text a) /\
                url r = dict_get (attributes a) "href" (PyStr "")
    | None => version r = PyNone /\ url r = PyNone
    end /\
    (artifacts r = PyStr (text c2) \/
     exists z, artifacts r = PyInt z /\ 0 <= z).
Proof.
  intros Hvs Hin. apply lenient_loop_kept in Hvs.
  destruct (Forall2_In_right _ _ _ _ Hvs Hin) as (row & Hrow & Hr).
  apply filter_In in Hrow as [Hrow _].
  apply lenient_row_fields in Hr as (c0 & c1 & c2 & rest & H).
  exists row, c0, c1, c2, rest. tauto.
Qed.

Lemma lenient_record_fields_witness :
  let lib := dom_lib EachOnce in
  let r := {| version := PyStr "0.9"; url := PyNone;
              timestamp := PyStr " t0 "; artifacts := PyStr " 10 (estimate) " |} in
  exists row c0 c1 c2 rest,
    In row (tl (css (HTMLParser lib page_mixed) "table tr")) /\
    css row "td" = c0 :: c1 :: c2 :: rest /\
    timestamp r = PyStr (text c1) /\
    match css_first c0 "a" with
    | Some a => version r = PyStr (text a) /\
                url r = dict_get (attributes a) "href" (PyStr "")
    | None => version r = PyNone /\ url r = PyNone
    end /\
    (artifacts r = PyStr (text c2) \/
     exists z, artifacts r = PyInt z /\ 0 <= z).
Proof.
  cbv zeta.
  refine (lenient_record_fields (dom_lib EachOnce) 4300 page_mixed
            [ {| version := PyStr "1.0"; url := PyStr "./1.0";
                 timestamp := PyStr "t1"; artifacts := PyInt 10 |}; _ ] _ _ _).
  - vm_compute. reflexivity.
  - right. left. reflexivity.
Defined.

(** X2: the lenient variant raises exactly when some row after the first has
    three cells or more and an artifacts cell whose text passes [isdigit]
    without converting: it holds a digit that is not decimal, or has more
    digits than the interpreter's limit.  What it raises is a [ValueError],
    and no record is returned, not even those of the rows before. *)
Theorem lenient_raises_iff (lib : Selectolax) (max_str_digits : nat)
  (content : string) :
  ((exists e, parse_pypi_inspector lib max_str_digits content = Raises e) <->
   Exists (fun row => three_cells lib row = true /\
                      converts max_str_digits (artifacts_text lib row) = false)
     (tl (css (HTMLParser lib content) "table tr"))) /\
  (forall e, parse_pypi_inspector lib max_str_digits content = Raises e ->
     exists msg, e = ValueError msg).
Proof.
  split.
  - apply lenient_loop_raises.
  - intro e. apply lenient_loop_raises_value_error.
Qed.

(** ** Trimmed fields *)

Lemma lstrip_no_space (s : string) : starts_with_space (Str.lstrip s) = false.
Proof.
  induction s as [|c s IH]; simpl; [reflexivity|].
  destruct (Str.isspace c) eqn:E; [exact IH | simpl; exact E].
Qed.

Lemma rstrip_no_space (s : string) : ends_with_space (Str.rstrip s) = false.
Proof.
  induction s as [|c s IH]; simpl; [reflexivity|].
  destruct (Str.rstrip s) as [|d r] eqn:E.
  - destruct (Str.isspace c) eqn:Ec; simpl; [reflexivity | exact Ec].
  - exact IH.
Qed.

Lemma rstrip_keeps_start (s : string) :
  starts_with_space s = false -> starts_with_space (Str.rstrip s) = false.
Proof.
  destruct s as [|c s]; simpl; [reflexivity|]. intro Hc.
  destruct (Str.rstrip s); [rewrite Hc|]; simpl; exact Hc.
Qed.

Lemma strip_trimmed (s : string) : trimmed (PyStr (Str.strip s)).
Proof.
  exists (Str.strip s). split; [reflexivity|]. unfold Str.strip. split.
  - apply rstrip_keeps_start, lstrip_no_space.
  - apply rstrip_no_space.
Qed.

(** A text without white space around it is its own trimmed text. *)
Lemma strip_fixed (s : string) :
  starts_with_space s = false -> ends_with_space s = false -> Str.strip s = s.
Proof.
  intros Hs He. unfold Str.strip.
  assert (Hl : Str.lstrip s = s).
  { destruct s as [|c s]; simpl in *; [reflexivity | now rewrite Hs]. }
  rewrite Hl. clear Hl Hs.
  induction s as [|c s IH]; [reflexivity|].
  simpl. destruct s as [|d s'].
  - simpl in *. now rewrite He.
  - rewrite IH; [reflexivity | exact He].
Qed.

(** X3: the version, the timestamp and the artifacts of every record of the
    strict variant are texts that neither start nor end with white space. *)
Theorem strict_fields_trimmed (lib : Selectolax) (content : string)
  (r : VersionRecord) :
  In r (versions (parse_real_pypi_page lib content)) ->
  trimmed (version r) /\ trimmed (timestamp r) /\ trimmed (artifacts r).
Proof.
  unfold parse_real_pypi_page; simpl. intro Hin.
  pose proof (strict_loop_kept lib
                (css (HTMLParser lib content) "table tbody tr, table tr")) as H.
  destruct (Forall2_In_right _ _ _ _ H Hin) as (row & _ & Hr).
  apply strict_row_fields in Hr as (c0 & c1 & c2 & rest & a & _ & _ & ->).
  simpl. repeat split; apply strip_trimmed.
Qed.

Lemma strict_fields_trimmed_witness :
  let r := {| version := PyStr "0.9"; url := PyNone;
              timestamp := PyStr "t0"; artifacts := PyStr "10 (estimate)" |} in
  trimmed (version r) /\ trimmed (timestamp r) /\ trimmed (artifacts r).
Proof.
  cbv zeta.
  apply (strict_fields_trimmed (dom_lib EachOnce) page_mixed).
  vm_compute. right. left. reflexivity.
Defined.

(** X4: on a row of which both variants make a record, the two records have
    the same url; the version and the timestamp of the strict record are
    those of the lenient record trimmed, and its artifacts field is the
    trimmed text of the cell where the lenient record has that text
    untrimmed or its integer value.  On a row whose texts carry no white
    space around them and whose artifacts cell is not made of digits the two
    records are equal. *)
Theorem variants_agree (lib : Selectolax) (max_str_digits : nat)
  (row : node lib) (rl rs : VersionRecord) :
  lenient_row lib max_str_digits row [] = Returns [rl] ->
  strict_row lib [] row = [rs] ->
  url rs = url rl /\
  (exists v, version rl = PyStr v /\ version rs = PyStr (Str.strip v)) /\
  (exists t, timestamp rl = PyStr t /\ timestamp rs = PyStr (Str.strip t)) /\
  artifacts rs = PyStr (Str.strip (artifacts_text lib row)) /\
  (Str.isdigit (artifacts_text lib row) = false ->
   artifacts rl = PyStr (artifacts_text lib row)) /\
  (Str.isdigit (artifacts_text lib row) = true ->
   artifacts rl = PyInt (Str.decimal_value 0 (artifacts_text lib row))) /\
  (Str.isdigit (artifacts_text lib row) = false ->
   trimmed (version rl) -> trimmed (timestamp rl) -> trimmed (artifacts rl) ->
   rs = rl).
Proof.
  intros Hl Hs.
  apply strict_row_fields in Hs as (c0 & c1 & c2 & rest & a & Hc & Ha & ->).
  unfold lenient_row in Hl. unfold artifacts_text. rewrite Hc in *.
  rewrite Ha in Hl. cbn [version url timestamp artifacts].
  destruct (Str.isdigit (text c2)) eqn:Ed; simpl in Hl.
  - destruct (Str.isdecimal (text c2)) eqn:Edec.
    + rewrite (int_decimal _ _ Edec) in Hl.
      destruct ((0 <? max_str_digits) && (max_str_digits <? String.length (text c2)))%nat;
        simpl in Hl; [discriminate Hl|].
      injection Hl as <-. simpl.
      repeat split; eauto; discriminate.
    + rewrite (int_not_decimal _ _ Ed Edec) in Hl. discriminate Hl.
  - injection Hl as <-. simpl.
    repeat split; eauto; try discriminate.
    intros _ (v & Hv & Hv1 & Hv2) (t & Ht & Ht1 & Ht2) (x & Hx & Hx1 & Hx2).
    injection Hv as <-. injection Ht as <-. injection Hx as <-.
    now rewrite !strip_fixed.
Qed.

Lemma variants_agree_witness :
  let lib := dom_lib EachOnce in
  let rl := {| version := PyStr " 2.0 "; url := PyStr "./2.0";
               timestamp := PyStr " 2025-01-01 "; artifacts := PyInt 12 |} in
  let rs := {| version := PyStr "2.0"; url := PyStr "./2.0";
               timestamp := PyStr "2025-01-01"; artifacts := PyStr "12" |} in
  url rs = url rl /\
  (exists v, version rl = PyStr v /\ version rs = PyStr (Str.strip v)) /\
  (exists t, timestamp rl = PyStr t /\ timestamp rs = PyStr (Str.strip t)) /\
  artifacts rs = PyStr (Str.strip (artifacts_text lib spaced_row)) /\
  (Str.isdigit (artifacts_text lib spaced_row) = false ->
   artifacts rl = PyStr (artifacts_text lib spaced_row)) /\
  (Str.isdigit (artifacts_text lib spaced_row) = true ->
   artifacts rl = PyInt (Str.decimal_value 0 (artifacts_text lib spaced_row))) /\
  (Str.isdigit (artifacts_text lib spaced_row) = false ->
   trimmed (version rl) -> trimmed (timestamp rl) -> trimmed (artifacts rl) ->
   rs = rl).
Proof.
  cbv zeta.
  apply (variants_agree (dom_lib EachOnce) 4300 spaced_row);
    vm_compute; reflexivity.
Defined.

(** ** Absent fields of the page *)

(** X5: the message of the strict variant is [None] only when the page has
    no paragraph, and is otherwise the untrimmed text of the first one; the
    project is [None] only when no input named project is found or when the
    attribute dictionary of the first one found holds [None] for [value]
    (which is what the library reports for an attribute without a value or
    with an empty one), and is the empty text when that dictionary has no
    [value] key. *)
Theorem page_fields_absent_iff (lib : Selectolax) (content : string) :
  let tree := HTMLParser lib content in
  let inputs := css tree (q "input[name='project']") in
  let result := parse_real_pypi_page lib content in
  (version_count result = PyNone <-> css tree "p" = []) /\
  (forall p rest, css tree "p" = p :: rest ->
     version_count result = PyStr (text p)) /\
  (project result = PyNone <->
   inputs = [] \/
   exists i rest, inputs = i :: rest /\
                  dict_lookup (attributes i) "value" = Some None) /\
  (forall i rest, inputs = i :: rest ->
     dict_lookup (attributes i) "value" = None -> project result = PyStr "").
Proof.
  cbv zeta. unfold parse_real_pypi_page, css_first, dict_get.
  cbn [project version_count].
  split; [|split; [|split]].
  - destruct (css (HTMLParser lib content) "p"); simpl; split;
      try discriminate; reflexivity.
  - intros p rest ->. reflexivity.
  - destruct (css (HTMLParser lib content) (q "input[name='project']"))
      as [|i ins]; simpl.
    + split; auto.
    + destruct (dict_lookup (attributes i) "value") as [[v|]|] eqn:Ev; split;
        try discriminate.
      * intros [H | (i' & r' & H & H')];
          [discriminate H | injection H as <- <-; congruence].
      * intros _. right. eauto.
      * reflexivity.
      * intros [H | (i' & r' & H & H')];
          [discriminate H | injection H as <- <-; congruence].
  - intros i rest -> Hv. simpl. rewrite Hv. reflexivity.
Qed.

(** ** What the fetcher does on the way *)



(** X7: on a non-empty text [fetch_url_content] returns a text exactly when
    the four calls of its [try] block all return: building the request,
    opening it, reading the body and decoding it with the declared charset
    (UTF-8 without one); the text is then the decoded body.  A failure of any
    of them gives [None]. *)
Theorem fetch_text_iff (net : Urllib) (s : string) (timeout : Z) (t : unicode) :
  s <> EmptyString ->
  (snd (run (fetch_url_content net (ObjStr s) timeout)) = Returns (Some t) <->
   exists rq rs content,
     Request net s headers = Returns rq /\
     urlopen net rq timeout = Returns rs /\
     read rs = Returns content /\
     decode net content (or_else (get_content_charset rs) "utf-8") "replace"
     = Returns t).
Proof.
  intro Hs. rewrite (fetch_run net s timeout Hs). split.
  - destruct (Request net s headers) as [rq|e]; [|discriminate].
    destruct (urlopen net rq timeout) as [rs|e] eqn:Eopen; [|discriminate].
    destruct (read rs) as [content|e] eqn:Eread; [|discriminate].
    destruct (decode net content _ "replace") as [t'|e] eqn:Edec;
      [|discriminate].
    simpl. intro H; injection H as <-. exists rq, rs, content. auto.
  - intros (rq & rs & content & -> & -> & -> & ->). reflexivity.
Qed.

Lemma fetch_text_iff_witness :
  let net := serves [x61; xff; x62] (Some "latin-1") in
  let s := "https://example.com" in
  snd (run (fetch_url_content net (ObjStr s) default_timeout))
  = Returns (Some [97; 255; 98]%N) <->
  exists rq rs content,
    Request net s headers = Returns rq /\
    urlopen net rq default_timeout = Returns rs /\
    read rs = Returns content /\
    decode net content (or_else (get_content_charset rs) "utf-8") "replace"
    = Returns [97; 255; 98]%N.
Proof.
  cbv zeta.
  apply (fetch_text_iff (serves [x61; xff; x62] (Some "latin-1"))
           "https://example.com" default_timeout).
  discriminate.
Defined.

(** ** The tour of queries and the script *)

Lemma prints_ret {A : Type} (a : A) : prints (ret a) [] a.
Proof. intro tr. unfold ret. now rewrite app_nil_r. Qed.

Lemma prints_print (line : string) : prints (print line) [Print line] tt.
Proof. intro tr. reflexivity. Qed.

Lemma prints_bind {A B : Type} (m : io A) (k : A -> io B)
  (evs1 evs2 : list event) (a : A) (b : B) :
  prints m evs1 a -> prints (k a) evs2 b -> prints (io_bind m k) (evs1 ++ evs2) b.
Proof.
  intros Hm Hk tr. unfold io_bind. rewrite Hm, Hk, app_assoc. reflexivity.
Qed.

Lemma prints_for_each {A : Type} (line : A -> string) (l : list A) :
  prints (io_for_each (fun x => print (line x)) l)
    (map (fun x => Print (line x)) l) tt.
Proof.
  induction l as [|x l IH]; simpl.
  - apply prints_ret.
  - apply (prints_bind _ _ [Print (line x)] _ tt); [apply prints_print | exact IH].
Qed.

Lemma prints_run {A : Type} (m : io A) (evs : list event) (a : A) :
  prints m evs a -> run m = (evs, Returns a).
Proof. intro H. unfold run. now rewrite H. Qed.

Section Tour.

Variable lib : Selectolax.
Variable content : string.

Let tree := HTMLParser lib content.

(** The lines of [extract_elements_example], section by section. *)
Lemma tour_prints :
  prints (extract_elements_example lib content)
    ([Print ("Title: " ++ match css_first tree "title" with
                          | Some t => text t
                          | None => "Not found"
                          end)%string]
     ++ [Print (newline ++ "Found "
                ++ str_of_Z (Z.of_nat (List.length (css tree "a")))
                ++ " links:")%string]
     ++ map (fun link => Print (link_line lib link)) (firstn 5 (css tree "a"))
     ++ match css_first tree "#loading-error" with
        | Some n => [Print (newline ++ "Loading error message: " ++ text n)%string]
        | None => []
        end
     ++ match css tree ".noscript-content" with
        | _ :: _ =>
            [Print (newline ++ "Noscript elements found: "
                    ++ str_of_Z (Z.of_nat (List.length
                                             (css tree ".noscript-content"))))%string]
        | [] => []
        end
     ++ match css_first tree "table" with
        | Some t =>
            [Print (newline ++ "Table found!")%string;
             Print ("Headers: " ++ str_of_list (map text (css t "th")))%string]
        | None => []
        end
     ++ [])
    tree.
Proof.
  unfold extract_elements_example. fold tree.
  apply (prints_bind _ _ _ _ tt); [apply prints_print|].
  apply (prints_bind _ _ _ _ tt); [apply prints_print|].
  apply (prints_bind _ _ _ _ tt); [apply prints_for_each|].
  apply (prints_bind _ _ _ _ tt).
  { destruct (css_first tree "#loading-error");
      [apply prints_print | apply prints_ret]. }
  apply (prints_bind _ _ _ _ tt).
  { destruct (css tree ".noscript-content");
      [apply prints_ret | apply prints_print]. }
  apply (prints_bind _ _ _ _ tt).
  { destruct (css_first tree "table"); [|apply prints_ret].
    apply (prints_bind _ _ [_] [_] tt tt); apply prints_print. }
  apply prints_ret.
Qed.

End Tour.

(** X8: [extract_elements_example] returns the parsed tree and does nothing
    but call [print].  The first call prints the title (the text of the
    first title element, Not found without one), the second the number of
    all the links of the page, and the calls that follow print the links in
    document order, five of them at most; at most four more calls come after
    (loading error, noscript elements, table and headers), so no page makes
    it call [print] more than eleven times.  The calls are counted, not the
    lines: several of the texts start with a line feed. *)
Theorem tour_lists_five_links (lib : Selectolax) (content : string) :
  let tree := HTMLParser lib content in
  let links := css tree "a" in
  let trace := fst (run (extract_elements_example lib content)) in
  snd (run (extract_elements_example lib content)) = Returns tree /\
  forallb is_print trace = true /\
  (exists rest,
     trace = Print ("Title: " ++ match css_first tree "title" with
                                 | Some t => text t
                                 | None => "Not found"
                                 end)%string
             :: Print (newline ++ "Found "
                       ++ str_of_Z (Z.of_nat (List.length links)) ++ " links:")%string
             :: map (fun link => Print (link_line lib link)) (firstn 5 links)
             ++ rest /\
     (List.length rest <= 4)%nat) /\
  (List.length trace <= 11)%nat.
Proof.
  cbv zeta. rewrite (prints_run _ _ _ (tour_prints lib content)).
  cbn [fst snd]. split; [reflexivity|].
  set (links := css (HTMLParser lib content) "a").
  match goal with
  | |- context [map ?f (firstn 5 links) ++ ?r] => set (rest := r)
  end.
  assert (Hrest : (List.length rest <= 4)%nat /\ forallb is_print rest = true).
  { subst rest.
    destruct (css_first (HTMLParser lib content) "#loading-error");
      destruct (css (HTMLParser lib content) ".noscript-content");
      destruct (css_first (HTMLParser lib content) "table");
      simpl; split; (lia || reflexivity). }
  destruct Hrest as [Hl Hp].
  assert (Hmap : forallb is_print
                   (map (fun link => Print (link_line lib link)) (firstn 5 links))
                 = true).
  { apply forallb_forall. intros e He.
    apply in_map_iff in He as (x & <- & _). reflexivity. }
  cbn [app]. split; [|split].
  - cbn [forallb is_print andb]. rewrite forallb_app, Hmap, Hp. reflexivity.
  - exists rest. split; [reflexivity | exact Hl].
  - cbn [List.length]. rewrite length_app, length_map, length_firstn. lia.
Qed.

(** X9: the script calls [print] for the project, for the message and for
    the number of records found, which is the number of visits of the loop
    to a row that has three cells or more and a link in the first, and then
    once for each of the first five records, in order: 3 + min(5, that
    number) calls, never more than eight.  The calls are counted, not the
    lines: the text of the third call starts with a line feed. *)
Theorem script_reports_linked_rows (lib : Selectolax) (html_str : string) :
  let rows := css (HTMLParser lib html_str) "table tbody tr, table tr" in
  let result := parse_real_pypi_page lib html_str in
  let trace := fst (run (main_block lib html_str)) in
  trace = [Print ("Project: " ++ str_of_pyval (project result))%string;
           Print ("Info: " ++ str_of_pyval (version_count result))%string;
           Print (newline ++ "Versions found: "
                  ++ str_of_Z (Z.of_nat (List.length (filter (linked lib) rows))))%string]
          ++ map (fun v => Print (version_line v)) (firstn 5 (versions result)) /\
  List.length trace = (3 + Nat.min 5 (List.length (filter (linked lib) rows)))%nat /\
  snd (run (main_block lib html_str)) = Returns tt.
Proof.
  cbv zeta.
  assert (Hn : List.length (versions (parse_real_pypi_page lib html_str))
               = List.length (filter (linked lib)
                   (css (HTMLParser lib html_str) "table tbody tr, table tr"))).
  { symmetry. apply (Forall2_length (strict_loop_kept lib _)). }
  assert (Hp : prints (main_block lib html_str)
                 ([Print ("Project: " ++ str_of_pyval
                            (project (parse_real_pypi_page lib html_str)))%string]
                  ++ [Print ("Info: " ++ str_of_pyval
                               (version_count (parse_real_pypi_page lib html_str)))%string]
                  ++ [Print (newline ++ "Versions found: "
                             ++ str_of_Z (Z.of_nat (List.length
                                  (versions (parse_real_pypi_page lib html_str)))))%string]
                  ++ map (fun v => Print (version_line v))
                       (firstn 5 (versions (parse_real_pypi_page lib html_str))))
                 tt).
  { unfold main_block.
    apply (prints_bind _ _ _ _ tt); [apply prints_print|].
    apply (prints_bind _ _ _ _ tt); [apply prints_print|].
    apply (prints_bind _ _ _ _ tt); [apply prints_print|].
    apply prints_for_each. }
  rewrite (prints_run _ _ _ Hp). cbn [fst snd app]. rewrite Hn.
  split; [reflexivity|]. split; [|reflexivity].
  cbn [List.length]. rewrite length_map, length_firstn, Hn. reflexivity.
Qed.

(** What the script prints for its own page: seven calls of [print], the
    third of which starts with a line feed. *)
Example main_prints :
  run (main (dom_lib PerAlternative))
  = ([Print "Project: liburlparser";
      Print "Info: Retrieved 20 versions.";
      Print (newline ++ "Versions found: 4")%string;
      Print "  1.6.0: 2025-05-04T13:21:22 (10 artifacts)";
      Print "  1.5.0: 2024-10-18T18:22:29 (31 artifacts)";
      Print "  1.6.0: 2025-05-04T13:21:22 (10 artifacts)";
      Print "  1.5.0: 2024-10-18T18:22:29 (31 artifacts)"],
     Returns tt).
Proof. vm_compute. reflexivity. Qed.

(** The tour on a page with seven links and a table: nine calls. *)
Example page_links_tour :
  fst (run (extract_elements_example (dom_lib PerAlternative) page_links))
  = [Print "Title: Links";
     Print (newline ++ "Found 7 links:")%string;
     Print "  - one: /1"; Print "  - two: /2"; Print "  - three: ";
     Print "  - four: None"; Print "  - five: /5";
     Print (newline ++ "Table found!")%string;
     Print "Headers: ['Name', 'Version']"].
Proof. vm_compute. reflexivity. Qed.
